(** * rmwc: Icon, Menu Item and Snackbar

    A shallow embedding of the decision logic of three presentational
    components: the icon strategy resolver and the [Icon] render function
    (src/icon/index.tsx), the [MenuItem] render function, and the prop
    synchronisation and click dispatch of [Snackbar].

    JavaScript objects are finite maps from property names to values; the
    diagnostic channel (console) and the calls made on the Snackbar's
    foundation object are recorded in explicit traces. *)

From Stdlib Require Import String ZArith List Bool.
From stdpp Require Import base option strings gmap pretty.

Local Open Scope string_scope.
Local Open Scope Z_scope.

(** ** JavaScript values *)

Module Js.

(** The fragment of JavaScript values the components inspect.  Numbers are
    the integral ones.  Functions, React elements and objects are reference
    values: [ref] is their identity, which is all that [===] looks at.  A
    function carries its source text (what [String(f)] yields), a plain
    object its own enumerable properties; React elements stay opaque. *)
#[warnings="-register-all"]
Inductive JsVal : Type :=
| VUndefined
| VNull
| VBool (b : bool)
| VNum (n : Z)
| VStr (s : string)
| VFun (ref : nat) (src : string)
| VElem (ref : nat)
| VObj (ref : nat) (fields : gmap string JsVal).

(** A property bag: the own enumerable properties of an object. *)
Abbreviation Obj := (gmap string JsVal).

(** ToBoolean. *)
Definition truthy (v : JsVal) : bool :=
  match v with
  | VUndefined | VNull => false
  | VBool b => b
  | VNum n => negb (n =? 0)
  | VStr s => negb (String.eqb s "")
  | VFun _ _ | VElem _ | VObj _ _ => true
  end.

(** [a || b] *)
Definition jsOr (a b : JsVal) : JsVal := if truthy a then a else b.

(** [a === b] *)
Definition strict_eq (a b : JsVal) : bool :=
  match a, b with
  | VUndefined, VUndefined => true
  | VNull, VNull => true
  | VBool x, VBool y => Bool.eqb x y
  | VNum x, VNum y => x =? y
  | VStr x, VStr y => String.eqb x y
  | VFun r _, VFun r' _ => Nat.eqb r r'
  | VElem r, VElem r' => Nat.eqb r r'
  | VObj r _, VObj r' _ => Nat.eqb r r'
  | _, _ => false
  end.

(** [typeof v] *)
Definition typeof (v : JsVal) : string :=
  match v with
  | VUndefined => "undefined"
  | VNull | VElem _ | VObj _ _ => "object"
  | VBool _ => "boolean"
  | VNum _ => "number"
  | VStr _ => "string"
  | VFun _ _ => "function"
  end.

(** [String(v)], also the conversion of template literals and of
    property keys. *)
Definition String_ (v : JsVal) : string :=
  match v with
  | VUndefined => "undefined"
  | VNull => "null"
  | VBool true => "true"
  | VBool false => "false"
  | VNum n => pretty n
  | VStr s => s
  | VFun _ src => src
  | VElem _ | VObj _ _ => "[object Object]"
  end.

(** [o[k]] on a property bag: a missing property reads as [undefined]. *)
Definition getProp (o : Obj) (k : string) : JsVal := default VUndefined (o !! k).

(** [v.k] for one of the option names read by the components (none of
    which is a member of a primitive wrapper or of a prototype). *)
Definition readProp (v : JsVal) (k : string) : JsVal :=
  match v with
  | VObj _ fields => getProp fields k
  | _ => VUndefined
  end.

(** The properties [{...v}] copies.  As the props are typed, only
    objects and falsy primitives are spread by the components. *)
Definition ownProps (v : JsVal) : Obj :=
  match v with
  | VObj _ fields => fields
  | _ => ∅
  end.

(** [{...a, ...b}]: the later spread wins, also with an [undefined] value. *)
Definition spread (a b : Obj) : Obj := b ∪ a.

(** [const {k1, ..., kn, ...rest} = o]: the rest. *)
Definition omit (ks : list string) (o : Obj) : Obj :=
  fold_right (λ k acc, delete k acc) o ks.

(** [React.isValidElement] *)
Definition isValidElement (v : JsVal) : bool :=
  match v with VElem _ => true | _ => false end.

(** [s.startsWith(p)] *)
Definition startsWith (s p : string) : bool := String.prefix p s.

End Js.
Export Js.

(** ** The diagnostic channel *)

(** What is written to the console, by [console.error] or through
    [deprecationWarning] of [@rmwc/base].  A deprecation warning keeps the
    data its message text is built from. *)
Inductive Diagnostic : Type :=
| WarnIconOptions (converted : Obj)
| WarnReplaced (component oldProp newProp : string)
| WarnRemoved (component oldProp : string)
| ConsoleError (msg : string).

(** ** Icon (src/icon/index.tsx) *)

(** Given content, tries to figure out an appropriate strategy for it. *)
Definition processAutoStrategy (content : JsVal) : string :=
  if (match content with
      | VStr s => startsWith s "/" || startsWith s "http://" || startsWith s "https://"
      | _ => false
      end)
  then "url"
  else if isValidElement content then "component"
  else "ligature".

(** The actual icon strategy to use. *)
Definition getIconStrategy (content strategy providerStrategy : JsVal) : JsVal :=
  let strategy := jsOr (jsOr strategy providerStrategy) (VStr "auto") in
  if strict_eq strategy (VStr "auto") then VStr (processAutoStrategy content)
  else strategy.

(** A virtual DOM node: [<etype {...eprops} />], children under the
    [children] property. *)
Record Element : Type := MkElement { etype : string; eprops : Obj }.

(** The four render functions of the dispatch map. *)
Inductive BuiltinRender : Type :=
| RenderLigature
| RenderClassName
| RenderUrl
| RenderComponent.

(** What [renderToUse] can hold besides [undefined]: a render function
    of the dispatch map, a value supplied by the caller or the provider
    under [render], or a member [iconRenderMap] inherits from
    [Object.prototype]. *)
Inductive Renderer : Type :=
| Builtin (b : BuiltinRender)
| Supplied (v : JsVal)
| Inherited (member : string).

(** [renderLigature], [renderClassName], [renderUrl] and
    [renderComponent]: [{content, ...rest}] is taken apart and [rest]
    spread on [IconRoot]. *)
Definition applyBuiltin (b : BuiltinRender) (props : Obj) : Element :=
  let content := getProp props "content" in
  let rest := delete "content" props in
  match b with
  | RenderLigature | RenderComponent =>
      MkElement "IconRoot" (<["children" := content]> rest)
  | RenderClassName => MkElement "IconRoot" rest
  | RenderUrl =>
      MkElement "IconRoot" (<["src" := content]> (<["tag" := VStr "img"]> rest))
  end.

(** The names every plain object inherits from [Object.prototype]. *)
Definition objectPrototypeMembers : list string :=
  [ "constructor"; "hasOwnProperty"; "isPrototypeOf"; "propertyIsEnumerable";
    "toLocaleString"; "toString"; "valueOf"; "__defineGetter__";
    "__defineSetter__"; "__lookupGetter__"; "__lookupSetter__"; "__proto__" ].

(** [iconRenderMap[key]], [None] for [undefined]. *)
Definition iconRenderMap (key : string) : option Renderer :=
  if String.eqb key "ligature" then Some (Builtin RenderLigature)
  else if String.eqb key "className" then Some (Builtin RenderClassName)
  else if String.eqb key "url" then Some (Builtin RenderUrl)
  else if String.eqb key "component" then Some (Builtin RenderComponent)
  else if String.eqb key "auto" then None
  else if existsb (String.eqb key) objectPrototypeMembers then Some (Inherited key)
  else None.

(** The options of an [icon] prop, as the render spreads them: content
    is wrapped as [{icon}], an options record is taken as it is. *)
Definition buildIconOptions (icon : JsVal) : Obj :=
  if isValidElement icon || (truthy icon && negb (String.eqb (typeof icon) "object"))
  then {[ "icon" := icon ]}
  else ownProps icon.

(** An argument of [classNames]: a value, or an object literal written
    at the call. *)
Inductive ClassArg : Type :=
| ArgVal (v : JsVal)
| ArgLit (entries : list (string * JsVal)).

(** Modelled from the spec: [classNames] of [@rmwc/base], which is not
    part of the reviewed files, composes the class list of the rendered
    output from its arguments.  One argument contributes: a non-empty
    string or non-zero number itself, an object the keys whose value is
    truthy, anything else nothing (a React element, opaque here, is no
    class name). *)
Definition classTokens (a : ClassArg) : list string :=
  match a with
  | ArgVal (VStr s) => if String.eqb s "" then [] else [s]
  | ArgVal (VNum n) => if n =? 0 then [] else [pretty n]
  | ArgVal (VObj _ fields) =>
      (filter (λ kv, truthy kv.2 = true) (map_to_list fields)).*1
  | ArgVal _ => []
  | ArgLit entries => (filter (λ kv, truthy kv.2 = true) entries).*1
  end.

(** Modelled from the spec: the class list composed from all the
    arguments, in their order. *)
Definition classList (args : list ClassArg) : list string :=
  concat (map classTokens args).

(** Modelled from the spec: [classNames(...args)], the class list as
    one attribute value. *)
Definition classNames (args : list ClassArg) : string :=
  String.concat " " (classList args).

(** What the component evaluates to: [null], or a fragment around the
    result of [renderToUse(...)].  A call of anything but a render
    function of the dispatch map is kept as the call it is, [Applied]:
    how it ends is the callee's doing, see [completion]. *)
Inductive Child : Type :=
| Rendered (e : Element)
| Applied (callee : Renderer) (props : Obj).

Inductive RenderResult : Type :=
| RenderNull
| Fragment (child : Child).

(** The options record of a render call:
    [{...buildIconOptions(icon), ...deprecatedIconOption}]. *)
Definition iconOptionsRecord (icon deprecatedIconOption : JsVal) : Obj :=
  spread (buildIconOptions icon) (ownProps deprecatedIconOption).

(** [const {x = null} = providerContext.icon || {}] *)
Definition providerOption (providerIcon : JsVal) (k : string) : JsVal :=
  match readProp (jsOr providerIcon (VObj 0%nat ∅)) k with
  | VUndefined => VNull
  | v => v
  end.

Definition strategyToUse (options : Obj) (providerIcon : JsVal) : JsVal :=
  getIconStrategy (getProp options "icon")
    (jsOr (getProp options "strategy") VNull)
    (jsOr (providerOption providerIcon "strategy") VNull).

Definition prefixToUse (options : Obj) (providerIcon : JsVal) : JsVal :=
  jsOr (getProp options "prefix") (providerOption providerIcon "prefix").

Definition basenameToUse (options : Obj) (providerIcon : JsVal) : JsVal :=
  if strict_eq (getProp options "basename") VUndefined
  then providerOption providerIcon "basename"
  else getProp options "basename".

Definition iconClassName (options : Obj) (providerIcon : JsVal) : JsVal :=
  let content := getProp options "icon" in
  if strict_eq (strategyToUse options providerIcon) (VStr "className")
     && String.eqb (typeof content) "string"
  then VStr (String_ (prefixToUse options providerIcon) +:+ String_ content)
  else VNull.

(** [renderToUse], [None] when it is falsy. *)
Definition renderToUse (options : Obj) (providerIcon : JsVal) : option Renderer :=
  let strategy := strategyToUse options providerIcon in
  if strict_eq strategy (VStr "custom") then
    let r := jsOr (getProp options "render") (providerOption providerIcon "render") in
    if truthy r then Some (Supplied r) else None
  else if truthy strategy then iconRenderMap (String_ strategy)
  else None.

(** The arguments of the [classNames] call of the render. *)
Definition iconClassArgs (options : Obj) (providerIcon : JsVal) (rest : Obj)
  : list ClassArg :=
  let size := getProp options "size" in
  let optionsRest :=
    omit ["icon"; "strategy"; "prefix"; "basename"; "render"; "size"] options in
  [ ArgVal (VStr "rmwc-icon");
    ArgVal (basenameToUse options providerIcon);
    ArgVal (getProp rest "className");
    ArgVal (getProp optionsRest "className");
    ArgVal (iconClassName options providerIcon);
    ArgLit [("rmwc-icon--size-" +:+ String_ (jsOr size (VStr "")),
             VBool (truthy size))] ].

(** The component, from its props [{icon, iconOptions, providerContext,
    ...rest}] ([providerIcon] is [providerContext.icon]) to what it logs
    and what it returns. *)
Definition Icon (icon deprecatedIconOption providerIcon : JsVal) (rest : Obj)
  : list Diagnostic * RenderResult :=
  let deprecation :=
    if truthy deprecatedIconOption then
      [ WarnIconOptions
          (spread
             {[ "content" := if String.eqb (typeof icon) "string" then icon
                             else VStr "<MyComponent {...}/>" ]}
             (ownProps deprecatedIconOption)) ]
    else [] in
  let options := iconOptionsRecord icon deprecatedIconOption in
  let optionsRest :=
    omit ["icon"; "strategy"; "prefix"; "basename"; "render"; "size"] options in
  let contentToUse := getProp options "icon" in
  match renderToUse options providerIcon with
  | None =>
      ((deprecation ++
          [ ConsoleError ("Icon: rendering not implemented for "
                          +:+ String_ (strategyToUse options providerIcon) +:+ ".") ])%list,
       RenderNull)
  | Some r =>
      let props :=
        <["className" := VStr (classNames (iconClassArgs options providerIcon rest))]>
          (<["content" := contentToUse]> (spread rest optionsRest)) in
      (deprecation,
       Fragment match r with
                | Builtin b => Rendered (applyBuiltin b props)
                | _ => Applied r props
                end)
  end.

(** Whether [renderToUse(...)] is a call at all.  The render functions
    of the dispatch map are functions; a value supplied under [render] is
    callable when it is a function; of the members inherited from
    [Object.prototype] all are functions but [__proto__], which is the
    prototype object itself. *)
Definition callable (r : Renderer) : bool :=
  match r with
  | Builtin _ => true
  | Supplied (VFun _ _) => true
  | Supplied _ => false
  | Inherited member => negb (String.eqb member "__proto__")
  end.

(** How a render ends: it returns [null]; it returns the fragment around
    an element; it calls a function that is none of this file's, with
    the props given, and ends as that call does; or it throws the
    [TypeError] of calling what is not a function. *)
Inductive Completion : Type :=
| ReturnsNull
| ReturnsElement (e : Element)
| CallsOut (callee : Renderer) (props : Obj)
| ThrowsTypeError.

Definition completion (r : RenderResult) : Completion :=
  match r with
  | RenderNull => ReturnsNull
  | Fragment (Rendered e) => ReturnsElement e
  | Fragment (Applied callee props) =>
      if callable callee then CallsOut callee props else ThrowsTypeError
  end.

(** ** Menu Item *)

(** [<ListItem role="menuitem" tabIndex="0" {...props}>{props.children}</ListItem>]:
    the two attributes are written before the spread, the child after it. *)
Definition MenuItem (props : Obj) : Element :=
  MkElement "ListItem"
    (<["children" := getProp props "children"]>
       (spread (<["role" := VStr "menuitem"]> (<["tabIndex" := VStr "0"]> ∅)) props)).

(** ** Deprecation resolver (@rmwc/base/utils/deprecation) *)

(** A deprecation map, in the order its keys are written: deprecated
    name, then replacement name (empty: no replacement). *)
Abbreviation DeprecationMap := (list (string * string)).

(** Modelled from the spec: one entry of the map applied by
    [handleDeprecations], whose source is not part of the reviewed files.
    A deprecated key whose value is not [undefined] is removed, after its
    value was copied onto a non-empty replacement key that is not set
    already, and one diagnostic names the component, the key and its
    replacement (or says the key is obsolete). *)
Definition applyDeprecation (displayName : string)
    (acc : Obj * list Diagnostic) (entry : string * string) : Obj * list Diagnostic :=
  let '(props, log) := acc in
  let '(oldPropName, newPropName) := entry in
  if strict_eq (getProp props oldPropName) VUndefined then acc
  else if String.eqb newPropName "" then
    (delete oldPropName props, (log ++ [WarnRemoved displayName oldPropName])%list)
  else
    (delete oldPropName
       (if strict_eq (getProp props newPropName) VUndefined
        then <[newPropName := getProp props oldPropName]> props
        else props),
     (log ++ [WarnReplaced displayName oldPropName newPropName])%list).

(** Modelled from the spec: [handleDeprecations(props, map, displayName)],
    the normalized props and the diagnostics emitted; the input is not
    mutated. *)
Definition handleDeprecations (props : Obj) (deprecate : DeprecationMap)
    (displayName : string) : Obj * list Diagnostic :=
  foldl (applyDeprecation displayName) (props, []) deprecate.

(** ** Snackbar *)

Module Snackbar.

(** The target of a DOM event: an [Element] with its class list, or
    something else. *)
Inductive EventTarget : Type :=
| ElementTarget (classList : list string)
| OtherTarget.

Record Event : Type := MkEvent { eventId : nat; target : EventTarget }.

(** The entry points of [MDCSnackbarFoundation] the component drives. *)
Inductive FoundationCall : Type :=
| FOpen
| FHandleKeyDown (evt : Event)
| FHandleActionButtonClick (evt : Event)
| FHandleActionIconClick (evt : Event).

(** The foundation object as the component sees it: the calls made on
    it so far, oldest first, and its patched timer setting. *)
Record Foundation : Type := MkFoundation {
  calls : list FoundationCall;
  autoDismissTimeoutMs_ : JsVal
}.

(** The component instance's surroundings: its foundation and the
    console. *)
Record World : Type := MkWorld {
  foundation : Foundation;
  console : list Diagnostic
}.

Definition invoke (c : FoundationCall) (w : World) : World :=
  MkWorld
    (MkFoundation (calls (foundation w) ++ [c])%list
                  (autoDismissTimeoutMs_ (foundation w)))
    (console w).

Definition setTimeoutMs (v : JsVal) (w : World) : World :=
  MkWorld (MkFoundation (calls (foundation w)) v) (console w).

Definition warn (ds : list Diagnostic) (w : World) : World :=
  MkWorld (foundation w) (console w ++ ds)%list.

(** [static defaultProps = { dismissesOnAction: true }], applied by
    React to an [undefined] prop. *)
Definition withDefaultProps (props : Obj) : Obj :=
  if strict_eq (getProp props "dismissesOnAction") VUndefined
  then <["dismissesOnAction" := VBool true]> props
  else props.

Definition deprecations : DeprecationMap :=
  [ ("show", "open");
    ("onShow", "onOpen");
    ("onHide", "onClose");
    ("alignStart", "leading");
    ("multiline", "");
    ("actionOnBottom", "stacked");
    ("actionHandler", "");
    ("actionText", "") ].

Definition getPropsWithDeprecations (props : Obj) : Obj * list Diagnostic :=
  handleDeprecations props deprecations "Snackbar".

Definition sync (props prevProps : Obj) (w : World) : World :=
  let '(props, d1) := getPropsWithDeprecations props in
  let w := warn d1 w in
  let '(prevProps, d2) := getPropsWithDeprecations prevProps in
  let w := warn d2 w in
  (* open *)
  let w :=
    if negb (strict_eq (getProp props "open") (getProp prevProps "open"))
       && truthy (getProp props "open")
    then invoke FOpen w else w in
  (* timeout *)
  if negb (strict_eq (getProp props "timeout") (getProp prevProps "timeout"))
  then setTimeoutMs (getProp props "timeout") w
  else w.

(** [el.classList.contains(c)] *)
Definition contains (classList : list string) (c : string) : bool :=
  bool_decide (c ∈ classList).

(** [props] is [this.props]. *)
Definition handleSurfaceClick (props : Obj) (evt : Event) (w : World) : World :=
  match target evt with
  | ElementTarget classList =>
      if truthy (getProp props "dismissesOnAction")
         && contains classList "mdc-snackbar__action"
      then invoke (FHandleActionButtonClick evt) w
      else if contains classList "mdc-snackbar__dismiss"
      then invoke (FHandleActionIconClick evt) w
      else w
  | OtherTarget => w
  end.

End Snackbar.

(** ** Vocabulary of the statements *)

(** [s] begins with [p]. *)
Definition beginsWith (p s : string) : Prop := ∃ rest, s = p +:+ rest.

(** Text content that reads as an address. *)
Definition urlText (content : JsVal) : Prop :=
  ∃ s, content = VStr s
       ∧ (beginsWith "/" s ∨ beginsWith "http://" s ∨ beginsWith "https://" s).


(** A flag as the props declare it ([open?: boolean]): a boolean, or
    absent. *)
Definition booleanOrAbsent (v : JsVal) : Prop :=
  v = VUndefined ∨ ∃ b, v = VBool b.

(** A timer setting as the props declare it ([timeout?: number]): a
    number, or absent. *)
Definition numberOrAbsent (v : JsVal) : Prop :=
  v = VUndefined ∨ ∃ n, v = VNum n.

(** The option names the Icon render takes out of the options record. *)
Definition consumedOptions : list string :=
  ["icon"; "strategy"; "prefix"; "basename"; "render"; "size"].

(** The argument the Icon render hands to [renderToUse]:
    [{...rest, ...optionsRest, content, className}]. *)
Definition iconRenderProps (options : Obj) (providerIcon : JsVal) (rest : Obj) : Obj :=
  <["className" := VStr (classNames (iconClassArgs options providerIcon rest))]>
    (<["content" := getProp options "icon"]> (spread rest (omit consumedOptions options))).

(** The property names a render function of the dispatch map sets or
    removes itself. *)
Definition renderOwnedProps : list string :=
  ["content"; "className"; "children"; "src"; "tag"].

(** The diagnostic the deprecation resolver emits for an entry of its
    map: the key is obsolete, or has a replacement. *)
Definition deprecationDiagnostic (displayName : string) (entry : string * string)
  : Diagnostic :=
  if String.eqb entry.2 "" then WarnRemoved displayName entry.1
  else WarnReplaced displayName entry.1 entry.2.

(** The entries of a deprecation map whose deprecated key is set in
    [props]. *)
Definition deprecatedPresent (props : Obj) (deprecate : DeprecationMap)
  : DeprecationMap :=
  List.filter (λ e, negb (strict_eq (getProp props e.1) VUndefined)) deprecate.

(** The names the Snackbar's [render] takes out of its normalized props
    before it spreads the rest on the root element. *)
Definition snackbarRenderConsumed : list string :=
  ["open"; "message"; "timeout"; "dismissIcon"; "onOpen"; "onClose";
   "children"; "action"; "dismissesOnAction"].

(** The [...rest] of the Snackbar's [render]:
    [const {open, ..., dismissesOnAction, ...rest} =
       this.getPropsWithDeprecations(this.props)]. *)
Definition snackbarRenderRest (thisProps : Obj) : Obj :=
  omit snackbarRenderConsumed (Snackbar.getPropsWithDeprecations thisProps).1.

(** * Properties *)

(** ** JavaScript values *)

Lemma strict_eq_str (v : JsVal) (s : string) :
  strict_eq v (VStr s) = true ↔ v = VStr s.
Proof.
  destruct v; simpl; try (split; [discriminate | intros [=]]).
  rewrite String.eqb_eq. split; [congruence | by intros [= ->]].
Qed.

Lemma strict_eq_str_false (v : JsVal) (s : string) :
  strict_eq v (VStr s) = false ↔ v ≠ VStr s.
Proof.
  rewrite <- strict_eq_str. destruct (strict_eq v (VStr s)); split; congruence.
Qed.

Lemma strict_eq_undefined (v : JsVal) :
  strict_eq v VUndefined = true ↔ v = VUndefined.
Proof. destruct v; simpl; split; congruence. Qed.

Lemma jsOr_truthy (a b : JsVal) : truthy a = true → jsOr a b = a.
Proof. unfold jsOr. by intros ->. Qed.

Lemma jsOr_falsy (a b : JsVal) : truthy a = false → jsOr a b = b.
Proof. unfold jsOr. by intros ->. Qed.

Lemma startsWith_beginsWith (s p : string) :
  startsWith s p = true ↔ beginsWith p s.
Proof.
  unfold startsWith, beginsWith. revert s.
  induction p as [|c p IH]; intros s; simpl.
  - split; [intros _; by exists s | by destruct s].
  - destruct s as [|d s]; simpl.
    + split; [done | intros [rest Hr]].
      change (String c p +:+ rest) with (String c (p +:+ rest)) in Hr. done.
    + destruct (Ascii.ascii_dec c d) as [->|Hne].
      * rewrite IH. split; intros [rest Hr]; exists rest;
          change (String d p +:+ rest) with (String d (p +:+ rest)) in *; congruence.
      * split; [done | intros [rest Hr]].
        change (String c p +:+ rest) with (String c (p +:+ rest)) in Hr. congruence.
Qed.

(** ** Icon strategy resolution *)

Lemma processAutoStrategy_url (content : JsVal) :
  urlText content → processAutoStrategy content = "url".
Proof.
  intros (s & -> & H). unfold processAutoStrategy.
  rewrite <- !startsWith_beginsWith in H.
  destruct H as [-> | [-> | ->]]; by rewrite ?orb_true_r.
Qed.

Lemma processAutoStrategy_not_url (content : JsVal) :
  ¬ urlText content →
  processAutoStrategy content =
    if isValidElement content then "component" else "ligature".
Proof.
  intros H. unfold processAutoStrategy.
  destruct content as [| | | |s| | |]; try done.
  destruct (startsWith s "/" || startsWith s "http://" || startsWith s "https://")
    eqn:E; [|done].
  exfalso. apply H. exists s. split; [done|].
  rewrite <- !startsWith_beginsWith.
  apply orb_true_iff in E as [E|E]; [apply orb_true_iff in E as [E|E]|]; auto.
Qed.

Lemma getIconStrategy_auto (content strategy providerStrategy : JsVal) :
  jsOr (jsOr strategy providerStrategy) (VStr "auto") = VStr "auto" →
  getIconStrategy content strategy providerStrategy
  = VStr (processAutoStrategy content).
Proof. unfold getIconStrategy. by intros ->. Qed.

Lemma getIconStrategy_chosen (content strategy providerStrategy : JsVal) :
  jsOr (jsOr strategy providerStrategy) (VStr "auto") ≠ VStr "auto" →
  getIconStrategy content strategy providerStrategy
  = jsOr (jsOr strategy providerStrategy) (VStr "auto").
Proof.
  unfold getIconStrategy. intros H%strict_eq_str_false. by rewrite H.
Qed.

(** C1, as stated, fails: an explicit strategy ["auto"] does not hand over
    to the inherited strategy.  With content ["home"], explicit ["auto"]
    and inherited ["className"] the result is the inferred ["ligature"]. *)
Lemma getIconStrategy_explicit_auto_skips_inherited :
  getIconStrategy (VStr "home") (VStr "auto") (VStr "className") = VStr "ligature"
  ∧ getIconStrategy (VStr "home") (VStr "auto") (VStr "className") ≠ VStr "className".
Proof. split; [reflexivity | discriminate]. Qed.

(** C1, amended: a set (truthy) explicit strategy other than ["auto"] is
    returned unchanged; an unset explicit strategy hands over to a set
    inherited one, which is returned unchanged unless it is ["auto"]; an
    explicit ["auto"], like an inherited ["auto"] that was handed over to,
    is resolved by inference from the content, whatever else is set. *)
Theorem getIconStrategy_precedence (content explicit inherited : JsVal) :
  (truthy explicit = true → explicit ≠ VStr "auto" →
   getIconStrategy content explicit inherited = explicit)
  ∧ (truthy explicit = false → truthy inherited = true → inherited ≠ VStr "auto" →
     getIconStrategy content explicit inherited = inherited)
  ∧ (explicit = VStr "auto" →
     getIconStrategy content explicit inherited = VStr (processAutoStrategy content))
  ∧ (truthy explicit = false → inherited = VStr "auto" →
     getIconStrategy content explicit inherited = VStr (processAutoStrategy content)).
Proof.
  repeat split.
  - intros Ht Hne. rewrite getIconStrategy_chosen; rewrite !jsOr_truthy;
      rewrite ?jsOr_truthy; done.
  - intros Hf Ht Hne.
    rewrite getIconStrategy_chosen; rewrite (jsOr_falsy explicit) by done;
      rewrite jsOr_truthy; done.
  - intros ->. by apply getIconStrategy_auto.
  - intros Hf ->. apply getIconStrategy_auto. by rewrite (jsOr_falsy explicit).
Qed.

(** C4: with neither an explicit nor an inherited strategy set, text
    beginning with [/], [http://] or [https://] resolves to ["url"], a
    React element to ["component"], and everything else to ["ligature"]. *)
Theorem getIconStrategy_inference (content explicit inherited : JsVal) :
  truthy explicit = false →
  truthy inherited = false →
  (urlText content → getIconStrategy content explicit inherited = VStr "url")
  ∧ (isValidElement content = true →
     getIconStrategy content explicit inherited = VStr "component")
  ∧ (¬ urlText content → isValidElement content = false →
     getIconStrategy content explicit inherited = VStr "ligature").
Proof.
  intros He Hi.
  rewrite getIconStrategy_auto by (by rewrite (jsOr_falsy explicit), jsOr_falsy).
  repeat split.
  - intros H. by rewrite processAutoStrategy_url.
  - intros H. rewrite processAutoStrategy_not_url; [by rewrite H|].
    intros (s & -> & _). discriminate.
  - intros Hn H. by rewrite processAutoStrategy_not_url, H.
Qed.

(** An address resolves to ["url"]. *)
Lemma getIconStrategy_inference_witness :
  getIconStrategy (VStr "https://x/y.png") VNull VNull = VStr "url".
Proof.
  apply (getIconStrategy_inference (VStr "https://x/y.png") VNull VNull eq_refl eq_refl).
  exists "https://x/y.png". split; [done|]. right; right. by exists "x/y.png".
Defined.

(** ** Icon rendering *)

Lemma getProp_insert_eq (o : Obj) (k : string) (v : JsVal) :
  getProp (<[k := v]> o) k = v.
Proof. unfold getProp. by rewrite lookup_insert_eq. Qed.

Lemma getProp_insert_ne (o : Obj) (k k' : string) (v : JsVal) :
  k ≠ k' → getProp (<[k := v]> o) k' = getProp o k'.
Proof. intros H. unfold getProp. by rewrite lookup_insert_ne. Qed.

Lemma getProp_delete_eq (o : Obj) (k : string) :
  getProp (delete k o) k = VUndefined.
Proof. unfold getProp. by rewrite lookup_delete_eq. Qed.

Lemma getProp_delete_ne (o : Obj) (k k' : string) :
  k ≠ k' → getProp (delete k o) k' = getProp o k'.
Proof. intros H. unfold getProp. by rewrite lookup_delete_ne. Qed.

Lemma getProp_spread_later (a b : Obj) (k : string) (v : JsVal) :
  b !! k = Some v → getProp (spread a b) k = v.
Proof.
  intros H. unfold getProp, spread.
  by rewrite (lookup_union_Some_l b a k v H).
Qed.

Lemma getProp_spread_earlier (a b : Obj) (k : string) :
  b !! k = None → getProp (spread a b) k = getProp a k.
Proof. intros H. unfold getProp, spread. by rewrite lookup_union_r. Qed.

Lemma renderToUse_custom (options : Obj) (providerIcon : JsVal) :
  strategyToUse options providerIcon = VStr "custom" →
  renderToUse options providerIcon =
    let r := jsOr (getProp options "render") (providerOption providerIcon "render") in
    if truthy r then Some (Supplied r) else None.
Proof. unfold renderToUse. by intros ->. Qed.

Lemma renderToUse_dispatch (options : Obj) (providerIcon : JsVal) :
  strategyToUse options providerIcon ≠ VStr "custom" →
  renderToUse options providerIcon =
    if truthy (strategyToUse options providerIcon)
    then iconRenderMap (String_ (strategyToUse options providerIcon))
    else None.
Proof. unfold renderToUse. by intros ->%strict_eq_str_false. Qed.

(** X23: when the resolved strategy is ["custom"] and neither the
    caller nor the provider supplies a render function, and when the
    lookup of the resolved strategy in the dispatch map is [undefined]
    (no own entry, no member inherited from [Object.prototype]), the
    component writes one error to the console, after the deprecation
    warning if any, and returns [null]. *)
Theorem Icon_unresolved_renders_null
    (icon deprecatedIconOption providerIcon : JsVal) (rest : Obj) :
  let options := iconOptionsRecord icon deprecatedIconOption in
  (strategyToUse options providerIcon = VStr "custom"
   ∧ truthy (getProp options "render") = false
   ∧ truthy (providerOption providerIcon "render") = false)
  ∨ (strategyToUse options providerIcon ≠ VStr "custom"
     ∧ iconRenderMap (String_ (strategyToUse options providerIcon)) = None) →
  ∃ warnings,
    Icon icon deprecatedIconOption providerIcon rest =
      ((warnings ++
          [ConsoleError ("Icon: rendering not implemented for "
                         +:+ String_ (strategyToUse options providerIcon) +:+ ".")])%list,
       RenderNull)
    ∧ ∀ d, d ∈ warnings → ∃ converted, d = WarnIconOptions converted.
Proof.
  intros options H.
  assert (renderToUse options providerIcon = None) as Hr.
  { destruct H as [(Hs & Hc & Hp) | (Hs & Hm)].
    - rewrite renderToUse_custom by done. simpl.
      by rewrite (jsOr_falsy _ _ Hc), Hp.
    - rewrite renderToUse_dispatch by done. rewrite Hm. by case (truthy _). }
  unfold Icon. fold options. rewrite Hr.
  eexists. split; [reflexivity|].
  intros d Hd. destruct (truthy deprecatedIconOption).
  - apply list_elem_of_singleton in Hd. eauto.
  - by apply elem_of_nil in Hd.
Qed.

(** The provider asks for ["custom"] and nobody supplies [render]. *)
Lemma Icon_unresolved_renders_null_witness :
  ∃ warnings,
    Icon (VStr "home") VUndefined
         (VObj 1%nat {[ "strategy" := VStr "custom" ]}) ∅ =
      ((warnings ++
          [ConsoleError "Icon: rendering not implemented for custom."])%list,
       RenderNull)
    ∧ ∀ d, d ∈ warnings → ∃ converted, d = WarnIconOptions converted.
Proof.
  refine (Icon_unresolved_renders_null (VStr "home") VUndefined
            (VObj 1%nat {[ "strategy" := VStr "custom" ]}) ∅ _).
  left. repeat split; vm_compute; reflexivity.
Defined.

(** C10: the provider's basename stands in only for a caller basename
    that is [undefined], so an empty caller basename is kept (and
    contributes no class); the provider's prefix stands in for every
    falsy caller prefix, the empty string included. *)
Theorem Icon_basename_prefix_defaults (options : Obj) (providerIcon : JsVal) :
  (getProp options "basename" = VUndefined →
   basenameToUse options providerIcon = providerOption providerIcon "basename")
  ∧ (getProp options "basename" ≠ VUndefined →
     basenameToUse options providerIcon = getProp options "basename")
  ∧ (getProp options "basename" = VStr "" →
     basenameToUse options providerIcon = VStr ""
     ∧ classTokens (ArgVal (basenameToUse options providerIcon)) = [])
  ∧ (truthy (getProp options "prefix") = false →
     prefixToUse options providerIcon = providerOption providerIcon "prefix")
  ∧ (getProp options "prefix" = VStr "" →
     prefixToUse options providerIcon = providerOption providerIcon "prefix")
  ∧ (truthy (getProp options "prefix") = true →
     prefixToUse options providerIcon = getProp options "prefix").
Proof.
  unfold basenameToUse, prefixToUse. split_and!.
  - by intros ->.
  - intros H. destruct (strict_eq _ VUndefined) eqn:E; [|done].
    by apply strict_eq_undefined in E.
  - by intros ->.
  - intros H. by apply jsOr_falsy.
  - intros H. apply jsOr_falsy. by rewrite H.
  - intros H. by apply jsOr_truthy.
Qed.

(** Concrete renders: a ligature under a provider basename, an address,
    and the ["className"] strategy with no prefix anywhere, where the
    absent prefix is converted by [String]. *)
Example Icon_renders_ligature :
  Icon (VStr "home") VUndefined
       (VObj 1%nat (<["basename" := VStr "material-icons"]> ∅))
       (<["className" := VStr "big"]> ∅)
  = ([], Fragment (Rendered (MkElement "IconRoot"
           (<["className" := VStr "rmwc-icon material-icons big"]>
              (<["children" := VStr "home"]> ∅))))).
Proof. by vm_compute. Qed.

Example Icon_renders_url :
  Icon (VStr "/a.png") VUndefined VUndefined ∅
  = ([], Fragment (Rendered (MkElement "IconRoot"
           (<["className" := VStr "rmwc-icon"]>
              (<["tag" := VStr "img"]> (<["src" := VStr "/a.png"]> ∅)))))).
Proof. by vm_compute. Qed.

Example Icon_className_without_prefix :
  iconClassName
    (iconOptionsRecord
       (VObj 1%nat (<["icon" := VStr "home"]> (<["strategy" := VStr "className"]> ∅)))
       VUndefined)
    VUndefined
  = VStr "nullhome".
Proof. by vm_compute. Qed.

(** X22: for text content rendered under the resolved strategy
    ["className"], when a prefix is there, the caller's non-empty one and
    otherwise the provider's, the strategy's class is exactly prefix then
    content, and it is among the classes of the rendered [className]. *)
Theorem Icon_className_is_prefix_content
    (icon deprecatedIconOption providerIcon : JsVal) (rest : Obj)
    (pfx content : string) :
  let options := iconOptionsRecord icon deprecatedIconOption in
  getProp options "icon" = VStr content →
  strategyToUse options providerIcon = VStr "className" →
  (getProp options "prefix" = VStr pfx ∧ pfx ≠ "")
  ∨ (truthy (getProp options "prefix") = false
     ∧ providerOption providerIcon "prefix" = VStr pfx) →
  iconClassName options providerIcon = VStr (pfx +:+ content)
  ∧ ∃ warnings props,
      Icon icon deprecatedIconOption providerIcon rest =
        (warnings, Fragment (Rendered (MkElement "IconRoot" props)))
      ∧ getProp props "className" =
          VStr (classNames (iconClassArgs options providerIcon rest))
      ∧ (pfx +:+ content ≠ "" →
         pfx +:+ content ∈ classList (iconClassArgs options providerIcon rest)).
Proof.
  intros options Hc Hs Hp.
  assert (prefixToUse options providerIcon = VStr pfx) as Hpfx.
  { unfold prefixToUse. destruct Hp as [[Hp Hne] | [Hp Hprov]].
    - rewrite jsOr_truthy; [done|]. rewrite Hp. simpl.
      by apply negb_true_iff, String.eqb_neq.
    - by rewrite jsOr_falsy. }
  assert (iconClassName options providerIcon = VStr (pfx +:+ content)) as Hcls.
  { unfold iconClassName. by rewrite Hs, Hc, Hpfx. }
  split; [done|].
  assert (renderToUse options providerIcon = Some (Builtin RenderClassName)) as Hr.
  { rewrite renderToUse_dispatch by (rewrite Hs; discriminate). by rewrite Hs. }
  unfold Icon. fold options. rewrite Hr. do 2 eexists. split_and!.
  - reflexivity.
  - rewrite getProp_delete_ne by done. by rewrite getProp_insert_eq.
  - intros Hne. unfold iconClassArgs, classList. rewrite Hcls.
    cbn [map concat]. apply String.eqb_neq in Hne.
    rewrite !elem_of_app. do 4 right. left.
    cbn [classTokens]. rewrite Hne. by apply list_elem_of_singleton.
Qed.

(** Prefix ["fa-"] and content ["home"] give the class ["fa-home"]. *)
Lemma Icon_className_is_prefix_content_witness :
  iconClassName
    (iconOptionsRecord
       (VObj 1%nat (<["icon" := VStr "home"]> (<["strategy" := VStr "className"]>
                     (<["prefix" := VStr "fa-"]> ∅))))
       VUndefined)
    VUndefined
  = VStr "fa-home".
Proof.
  refine (proj1 (Icon_className_is_prefix_content
            (VObj 1%nat (<["icon" := VStr "home"]> (<["strategy" := VStr "className"]>
                          (<["prefix" := VStr "fa-"]> ∅))))
            VUndefined VUndefined ∅ "fa-" "home" _ _ _)).
  - vm_compute; reflexivity.
  - vm_compute; reflexivity.
  - left. split; [vm_compute; reflexivity | discriminate].
Defined.

(** C2, as stated, fails for the Icon: a field of the deprecated
    [iconOptions] replaces the same field of the [icon] options record.
    With [icon = {icon: "home", strategy: "ligature"}] and
    [iconOptions = {strategy: "className"}] the strategy read for the
    render is ["className"]. *)
Lemma Icon_deprecated_option_overrides :
  getProp
    (iconOptionsRecord
       (VObj 1%nat (<["icon" := VStr "home"]> (<["strategy" := VStr "ligature"]> ∅)))
       (VObj 2%nat (<["strategy" := VStr "className"]> ∅)))
    "strategy"
  = VStr "className"
  ∧ strategyToUse
      (iconOptionsRecord
         (VObj 1%nat (<["icon" := VStr "home"]> (<["strategy" := VStr "ligature"]> ∅)))
         (VObj 2%nat (<["strategy" := VStr "className"]> ∅)))
      VUndefined
    = VStr "className".
Proof. split; vm_compute; reflexivity. Qed.

(** ** Menu Item *)

(** C3, as stated, fails: a role (or tabIndex) supplied by the caller
    replaces the written one, since the props are spread after it. *)
Lemma MenuItem_role_overridden :
  getProp (eprops (MenuItem (<["role" := VStr "option"]> (<["tabIndex" := VNum (-1)]> ∅))))
          "role" = VStr "option"
  ∧ getProp (eprops (MenuItem (<["role" := VStr "option"]> (<["tabIndex" := VNum (-1)]> ∅))))
            "tabIndex" = VNum (-1).
Proof. split; vm_compute; reflexivity. Qed.

(** C3, amended: the Menu Item renders a [ListItem] whose role is
    ["menuitem"] unless the caller supplies a [role] property, and whose
    tabIndex is ["0"] unless the caller supplies a [tabIndex] property; a
    supplied one is forwarded in its place, like every other property,
    and the child is [props.children]. *)
Theorem MenuItem_role_tabIndex (props : Obj) :
  etype (MenuItem props) = "ListItem"
  ∧ getProp (eprops (MenuItem props)) "role"
    = match props !! "role" with Some v => v | None => VStr "menuitem" end
  ∧ getProp (eprops (MenuItem props)) "tabIndex"
    = match props !! "tabIndex" with Some v => v | None => VStr "0" end
  ∧ getProp (eprops (MenuItem props)) "children" = getProp props "children"
  ∧ ∀ k v, k ≠ "children" → props !! k = Some v →
           eprops (MenuItem props) !! k = Some v.
Proof.
  unfold MenuItem. simpl. split_and!; [done|..].
  - rewrite getProp_insert_ne by done.
    destruct (props !! "role") as [v|] eqn:E.
    + by apply getProp_spread_later.
    + by rewrite getProp_spread_earlier.
  - rewrite getProp_insert_ne by done.
    destruct (props !! "tabIndex") as [v|] eqn:E.
    + by apply getProp_spread_later.
    + by rewrite getProp_spread_earlier.
  - apply getProp_insert_eq.
  - intros k v Hk H. rewrite lookup_insert_ne by done.
    unfold spread. by apply lookup_union_Some_l.
Qed.

(** ** Deprecation resolver *)

Section Deprecations.
Variable displayName : string.

Implicit Types (props : Obj) (log : list Diagnostic) (deprecate : DeprecationMap).

(** An entry whose deprecated key reads [undefined] changes nothing. *)
Lemma applyDeprecation_absent props log oldName newName :
  getProp props oldName = VUndefined →
  applyDeprecation displayName (props, log) (oldName, newName) = (props, log).
Proof. unfold applyDeprecation. by intros ->. Qed.

(** A property that is set and is not the deprecated key survives. *)
Lemma applyDeprecation_keeps_set props log oldName newName k :
  getProp props k ≠ VUndefined → k ≠ oldName →
  getProp (applyDeprecation displayName (props, log) (oldName, newName)).1 k
  = getProp props k.
Proof.
  intros Hset Hk. unfold applyDeprecation.
  destruct (strict_eq (getProp props oldName) VUndefined); [done|].
  destruct (String.eqb newName ""); simpl.
  { by rewrite getProp_delete_ne. }
  rewrite getProp_delete_ne by done.
  destruct (strict_eq (getProp props newName) VUndefined) eqn:E; [|done].
  apply strict_eq_undefined in E.
  rewrite getProp_insert_ne; [done|]. by intros ->.
Qed.

(** The deprecated key of an entry reads [undefined] afterwards. *)
Lemma applyDeprecation_removes props log oldName newName :
  getProp (applyDeprecation displayName (props, log) (oldName, newName)).1 oldName
  = VUndefined.
Proof.
  unfold applyDeprecation.
  destruct (strict_eq (getProp props oldName) VUndefined) eqn:E.
  { by apply strict_eq_undefined in E. }
  destruct (String.eqb newName ""); simpl; apply getProp_delete_eq.
Qed.

(** A property that reads [undefined] and is not the replacement stays
    so. *)
Lemma applyDeprecation_keeps_unset props log oldName newName k :
  getProp props k = VUndefined → k ≠ newName →
  getProp (applyDeprecation displayName (props, log) (oldName, newName)).1 k
  = VUndefined.
Proof.
  intros Hun Hk. unfold applyDeprecation.
  destruct (strict_eq (getProp props oldName) VUndefined); [done|].
  destruct (decide (k = oldName)) as [->|Hne].
  { destruct (String.eqb newName ""); simpl; apply getProp_delete_eq. }
  destruct (String.eqb newName ""); simpl; rewrite getProp_delete_ne by done;
    [done|].
  destruct (strict_eq (getProp props newName) VUndefined); [|done].
  by rewrite getProp_insert_ne.
Qed.

Lemma foldl_applyDeprecation_keeps_set deprecate props log k :
  getProp props k ≠ VUndefined → k ∉ deprecate.*1 →
  getProp (foldl (applyDeprecation displayName) (props, log) deprecate).1 k
  = getProp props k.
Proof.
  revert props log.
  induction deprecate as [|[oldName newName] deprecate IH];
    intros props log Hset Hk; [done|].
  apply not_elem_of_cons in Hk as [Hk Hks]. simpl in Hk.
  cbn [foldl].
  pose proof (applyDeprecation_keeps_set props log oldName newName k Hset Hk) as Hstep.
  destruct (applyDeprecation displayName (props, log) (oldName, newName))
    as [props' log'].
  simpl in Hstep. rewrite IH; [done| by rewrite Hstep |done].
Qed.

Lemma foldl_applyDeprecation_removes deprecate props log k :
  k ∈ deprecate.*1 ∨ getProp props k = VUndefined →
  k ∉ deprecate.*2 →
  getProp (foldl (applyDeprecation displayName) (props, log) deprecate).1 k
  = VUndefined.
Proof.
  revert props log.
  induction deprecate as [|[oldName newName] deprecate IH];
    intros props log Hk Hnew.
  { destruct Hk as [Hk|Hk]; [by apply elem_of_nil in Hk | done]. }
  apply not_elem_of_cons in Hnew as [Hnew Hnews]. simpl in Hnew.
  cbn [foldl].
  pose proof (applyDeprecation_removes props log oldName newName) as Hrm.
  pose proof (applyDeprecation_keeps_unset props log oldName newName k) as Hun.
  destruct (applyDeprecation displayName (props, log) (oldName, newName))
    as [props' log'].
  simpl in Hrm, Hun. apply IH; [|done].
  destruct Hk as [Hk|Hk]; [|by right; apply Hun].
  apply elem_of_cons in Hk as [->|Hk]; [by right | by left].
Qed.

Lemma foldl_applyDeprecation_id deprecate props log :
  (∀ k, k ∈ deprecate.*1 → getProp props k = VUndefined) →
  foldl (applyDeprecation displayName) (props, log) deprecate = (props, log).
Proof.
  induction deprecate as [|[oldName newName] deprecate IH]; intros H; [done|].
  cbn [foldl]. rewrite applyDeprecation_absent.
  - apply IH. intros k Hk. apply H. by right.
  - apply H. by left.
Qed.

(** When no replacement name is itself deprecated, a normalized record
    is a fixed point of the resolver, and normalizing it is silent. *)
Lemma handleDeprecations_idempotent deprecate props :
  (∀ k, k ∈ deprecate.*1 → k ∉ deprecate.*2) →
  handleDeprecations (handleDeprecations props deprecate displayName).1
                     deprecate displayName
  = ((handleDeprecations props deprecate displayName).1, []).
Proof.
  intros Hdisj. unfold handleDeprecations at 1.
  apply foldl_applyDeprecation_id. intros k Hk.
  apply foldl_applyDeprecation_removes; [by left | by apply Hdisj].
Qed.

(** A replacement property that is set keeps its value. *)
Lemma handleDeprecations_current_wins deprecate props k :
  getProp props k ≠ VUndefined → k ∉ deprecate.*1 →
  getProp (handleDeprecations props deprecate displayName).1 k = getProp props k.
Proof. apply foldl_applyDeprecation_keeps_set. Qed.

End Deprecations.

Lemma Snackbar_replacements_not_deprecated (k : string) :
  k ∈ Snackbar.deprecations.*1 → k ∉ Snackbar.deprecations.*2.
Proof.
  revert k. apply Forall_forall.
  apply (bool_decide_unpack
           (Forall (λ k, k ∉ Snackbar.deprecations.*2) Snackbar.deprecations.*1)).
  by vm_compute.
Qed.

Lemma Snackbar_replacement_names (oldName newName : string) :
  (oldName, newName) ∈ Snackbar.deprecations → newName ≠ "" →
  (newName ∉ Snackbar.deprecations.*1) ∧ (oldName ∈ Snackbar.deprecations.*1)
  ∧ (oldName ∉ Snackbar.deprecations.*2).
Proof.
  intros Hin Hne.
  assert (oldName ∈ Snackbar.deprecations.*1) as Hold.
  { apply list_elem_of_fmap. by exists (oldName, newName). }
  split_and!; [|done|by apply Snackbar_replacements_not_deprecated].
  intros Hnew. apply (Snackbar_replacements_not_deprecated newName Hnew).
  apply list_elem_of_fmap. by exists (oldName, newName).
Qed.

(** C9: normalizing Snackbar props that are already normalized returns
    them unchanged (and warns about nothing). *)
Theorem Snackbar_getPropsWithDeprecations_idempotent (props : Obj) :
  Snackbar.getPropsWithDeprecations (Snackbar.getPropsWithDeprecations props).1
  = ((Snackbar.getPropsWithDeprecations props).1, []).
Proof.
  apply handleDeprecations_idempotent, Snackbar_replacements_not_deprecated.
Qed.

(** C2, amended: for the Snackbar, a replacement property that is set
    keeps its value when its deprecated alias is supplied too, and the
    alias is dropped from the normalized props; for the Icon it is the
    other way round: every field of the deprecated [iconOptions] replaces
    the same field of the [icon] options record. *)
Theorem deprecated_and_current_props :
  (∀ (props : Obj) (oldName newName : string),
     (oldName, newName) ∈ Snackbar.deprecations → newName ≠ "" →
     getProp props oldName ≠ VUndefined →
     getProp props newName ≠ VUndefined →
     getProp (Snackbar.getPropsWithDeprecations props).1 newName
     = getProp props newName
     ∧ getProp (Snackbar.getPropsWithDeprecations props).1 oldName = VUndefined)
  ∧ (∀ (icon : JsVal) (ref : nat) (fields : Obj) (k : string) (v : JsVal),
       fields !! k = Some v →
       getProp (iconOptionsRecord icon (VObj ref fields)) k = v).
Proof.
  split.
  - intros props oldName newName Hin Hne _ Hnew.
    destruct (Snackbar_replacement_names oldName newName Hin Hne)
      as (Hn & Ho & Ho').
    split.
    + by apply handleDeprecations_current_wins.
    + apply foldl_applyDeprecation_removes; [by left | done].
  - intros icon ref fields k v H. by apply getProp_spread_later.
Qed.

(** [show=true] with [open=false] normalizes to [open=false]. *)
Lemma deprecated_and_current_props_witness :
  getProp (Snackbar.getPropsWithDeprecations
             (<["show" := VBool true]> (<["open" := VBool false]> ∅))).1 "open"
  = VBool false.
Proof.
  refine (proj1 (proj1 deprecated_and_current_props
                   (<["show" := VBool true]> (<["open" := VBool false]> ∅))
                   "show" "open" _ _ _ _)).
  - by left.
  - discriminate.
  - by vm_compute.
  - by vm_compute.
Defined.

(** ** Snackbar *)

(** An unsupplied [dismissesOnAction] is [true] in [this.props]. *)
Lemma withDefaultProps_dismissesOnAction (props : Obj) :
  getProp props "dismissesOnAction" = VUndefined →
  getProp (Snackbar.withDefaultProps props) "dismissesOnAction" = VBool true.
Proof.
  intros H. unfold Snackbar.withDefaultProps. rewrite H. simpl.
  apply getProp_insert_eq.
Qed.

Lemma sync_calls (props prevProps : Obj) (w : Snackbar.World) :
  Snackbar.calls (Snackbar.foundation (Snackbar.sync props prevProps w)) =
    (Snackbar.calls (Snackbar.foundation w) ++
     if negb (strict_eq (getProp (Snackbar.getPropsWithDeprecations props).1 "open")
                        (getProp (Snackbar.getPropsWithDeprecations prevProps).1 "open"))
        && truthy (getProp (Snackbar.getPropsWithDeprecations props).1 "open")
     then [Snackbar.FOpen] else [])%list.
Proof.
  unfold Snackbar.sync.
  destruct (Snackbar.getPropsWithDeprecations props) as [p d1].
  destruct (Snackbar.getPropsWithDeprecations prevProps) as [q d2]. simpl.
  destruct (negb (strict_eq (getProp p "open") (getProp q "open"))
            && truthy (getProp p "open"));
    destruct (negb (strict_eq (getProp p "timeout") (getProp q "timeout")));
    simpl; by rewrite ?app_nil_r.
Qed.

(** C7: with open flags that are booleans or absent, as the props are
    typed, [sync] calls the foundation's [open] once when the normalized
    flag is [true] now and was [false] or absent before, and does not
    call the foundation otherwise. *)
Theorem sync_opens_on_rising_flag (props prevProps : Obj) (w : Snackbar.World) :
  let now := getProp (Snackbar.getPropsWithDeprecations props).1 "open" in
  let before := getProp (Snackbar.getPropsWithDeprecations prevProps).1 "open" in
  booleanOrAbsent now → booleanOrAbsent before →
  (now = VBool true ∧ (before = VBool false ∨ before = VUndefined) →
   Snackbar.calls (Snackbar.foundation (Snackbar.sync props prevProps w))
   = (Snackbar.calls (Snackbar.foundation w) ++ [Snackbar.FOpen])%list)
  ∧ (¬ (now = VBool true ∧ (before = VBool false ∨ before = VUndefined)) →
     Snackbar.calls (Snackbar.foundation (Snackbar.sync props prevProps w))
     = Snackbar.calls (Snackbar.foundation w)).
Proof.
  intros now before Hnow Hbefore. rewrite sync_calls. fold now before.
  destruct Hnow as [-> | [[] ->]], Hbefore as [-> | [[] ->]]; simpl;
    rewrite ?app_nil_r; split; try done; intros H;
    try (exfalso; apply H; auto); by destruct H as [? [?|?]].
Qed.

(** From [open=false] to the deprecated [show=true]: one call of
    [open]. *)
Lemma sync_opens_on_rising_flag_witness :
  Snackbar.calls (Snackbar.foundation
    (Snackbar.sync (<["show" := VBool true]> ∅) (<["open" := VBool false]> ∅)
       (Snackbar.MkWorld (Snackbar.MkFoundation [] VUndefined) [])))
  = [Snackbar.FOpen].
Proof.
  refine (proj1 (sync_opens_on_rising_flag
            (<["show" := VBool true]> ∅) (<["open" := VBool false]> ∅)
            (Snackbar.MkWorld (Snackbar.MkFoundation [] VUndefined) []) _ _) _).
  - right. by exists true.
  - right. by exists false.
  - split; [by vm_compute | left; by vm_compute].
Defined.

(** C8, as stated, fails on a target that carries both classes: with
    [dismissesOnAction] true the dismiss-icon entry point is not invoked
    although the target carries the dismiss class, and with
    [dismissesOnAction] false the click on the action control does invoke
    a dismissal entry point. *)
Lemma handleSurfaceClick_both_classes :
  let evt := Snackbar.MkEvent 1
               (Snackbar.ElementTarget ["mdc-snackbar__action"; "mdc-snackbar__dismiss"]) in
  let w := Snackbar.MkWorld (Snackbar.MkFoundation [] VUndefined) [] in
  Snackbar.calls (Snackbar.foundation
    (Snackbar.handleSurfaceClick (<["dismissesOnAction" := VBool true]> ∅) evt w))
  = [Snackbar.FHandleActionButtonClick evt]
  ∧ Snackbar.calls (Snackbar.foundation
      (Snackbar.handleSurfaceClick (<["dismissesOnAction" := VBool false]> ∅) evt w))
    = [Snackbar.FHandleActionIconClick evt].
Proof. split; by vm_compute. Qed.

(** C8, amended: a click appends at most one call to the foundation.  On
    an element carrying the action class with [dismissesOnAction] truthy
    it is the action-button entry point, once, and nothing else.  With
    [dismissesOnAction] falsy the action-button entry point is never
    invoked.  On an element carrying the dismiss class it is the
    dismiss-icon entry point, once, unless the action-button branch was
    taken.  On an element carrying neither class, or a target that is no
    element, nothing is invoked. *)
Theorem handleSurfaceClick_dispatch
    (props : Obj) (evt : Snackbar.Event) (w : Snackbar.World) :
  ∃ new,
    Snackbar.handleSurfaceClick props evt w
    = Snackbar.MkWorld
        (Snackbar.MkFoundation
           (Snackbar.calls (Snackbar.foundation w) ++ new)
           (Snackbar.autoDismissTimeoutMs_ (Snackbar.foundation w)))
        (Snackbar.console w)
    ∧ (∀ classList, Snackbar.target evt = Snackbar.ElementTarget classList →
         let onAction := "mdc-snackbar__action" ∈ classList in
         let onDismiss := "mdc-snackbar__dismiss" ∈ classList in
         let dismisses := truthy (getProp props "dismissesOnAction") in
         (dismisses = true → onAction →
          new = [Snackbar.FHandleActionButtonClick evt])
         ∧ (dismisses = false → Snackbar.FHandleActionButtonClick evt ∉ new)
         ∧ (dismisses = false → onAction → ¬ onDismiss → new = [])
         ∧ (onDismiss → dismisses = false ∨ ¬ onAction →
            new = [Snackbar.FHandleActionIconClick evt])
         ∧ (¬ onAction → ¬ onDismiss → new = []))
    ∧ (Snackbar.target evt = Snackbar.OtherTarget → new = []).
Proof.
  exists (match Snackbar.target evt with
          | Snackbar.ElementTarget cl =>
              if truthy (getProp props "dismissesOnAction")
                 && bool_decide ("mdc-snackbar__action" ∈ cl)
              then [Snackbar.FHandleActionButtonClick evt]
              else if bool_decide ("mdc-snackbar__dismiss" ∈ cl)
              then [Snackbar.FHandleActionIconClick evt]
              else []
          | Snackbar.OtherTarget => []
          end).
  unfold Snackbar.handleSurfaceClick, Snackbar.contains, Snackbar.invoke.
  destruct w as [[cs t] con]. simpl.
  destruct (Snackbar.target evt) as [cl|] eqn:Ht.
  2: { rewrite app_nil_r. split_and!; [done | intros ? [=] | done]. }
  destruct (truthy (getProp props "dismissesOnAction")) eqn:Hd;
    destruct (decide ("mdc-snackbar__action" ∈ cl)) as [Ha|Ha];
    destruct (decide ("mdc-snackbar__dismiss" ∈ cl)) as [Hi|Hi];
    rewrite ?(bool_decide_eq_true_2 _ Ha), ?(bool_decide_eq_false_2 _ Ha),
            ?(bool_decide_eq_true_2 _ Hi), ?(bool_decide_eq_false_2 _ Hi); simpl;
    rewrite ?app_nil_r; (split_and!; [reflexivity | | done]);
    intros ? [= <-]; split_and!; intros; try done;
    try (intros Hin; apply list_elem_of_singleton in Hin; discriminate);
    try (by apply not_elem_of_nil); intuition congruence.
Qed.

(** * Further properties *)

(** ** Strategy resolution *)

Lemma processAutoStrategy_cases (content : JsVal) :
  processAutoStrategy content = "url"
  ∨ processAutoStrategy content = "component"
  ∨ processAutoStrategy content = "ligature".
Proof.
  unfold processAutoStrategy.
  destruct (match content with VStr _ => _ | _ => false end); [by left|].
  destruct (isValidElement content); auto.
Qed.

Lemma truthy_jsOr_auto (v : JsVal) : truthy (jsOr v (VStr "auto")) = true.
Proof. unfold jsOr. by destruct (truthy v) eqn:E. Qed.

(** X1: the resolved strategy is never ["auto"] and is always truthy,
    whatever the content and the two strategies are. *)
Theorem getIconStrategy_never_auto (content explicit inherited : JsVal) :
  getIconStrategy content explicit inherited ≠ VStr "auto"
  ∧ truthy (getIconStrategy content explicit inherited) = true.
Proof.
  unfold getIconStrategy.
  destruct (strict_eq _ (VStr "auto")) eqn:E.
  - destruct (processAutoStrategy_cases content) as [-> | [-> | ->]]; by split.
  - split; [by apply strict_eq_str_false | apply truthy_jsOr_auto].
Qed.

(** ** The render of the Icon *)

Lemma lookup_omit (ks : list string) (o : Obj) (k : string) :
  omit ks o !! k = if decide (k ∈ ks) then None else o !! k.
Proof.
  unfold omit. induction ks as [|k' ks IH]; cbn [fold_right].
  - by rewrite decide_False by apply not_elem_of_nil.
  - destruct (decide (k = k')) as [->|Hne].
    + rewrite lookup_delete_eq. by rewrite decide_True by left.
    + rewrite lookup_delete_ne by done. rewrite IH.
      destruct (decide (k ∈ ks)) as [Hin|Hin].
      * by rewrite decide_True by (by right).
      * rewrite decide_False; [done|]. by intros [?|?]%elem_of_cons.
Qed.

(** The render, by what [renderToUse] holds. *)
Lemma Icon_by_renderer (icon deprecatedIconOption providerIcon : JsVal) (rest : Obj) :
  let options := iconOptionsRecord icon deprecatedIconOption in
  ∃ warnings,
    (if truthy deprecatedIconOption
     then ∃ converted, warnings = [WarnIconOptions converted]
     else warnings = [])
    ∧ Icon icon deprecatedIconOption providerIcon rest =
        match renderToUse options providerIcon with
        | None =>
            ((warnings ++
                [ConsoleError ("Icon: rendering not implemented for "
                               +:+ String_ (strategyToUse options providerIcon)
                               +:+ ".")])%list,
             RenderNull)
        | Some (Builtin b) =>
            (warnings,
             Fragment (Rendered (applyBuiltin b (iconRenderProps options providerIcon rest))))
        | Some r =>
            (warnings, Fragment (Applied r (iconRenderProps options providerIcon rest)))
        end.
Proof.
  intros options. unfold Icon. fold options.
  destruct (truthy deprecatedIconOption); eexists; (split; [eauto|]);
    by destruct (renderToUse options providerIcon) as [[]|].
Qed.

Lemma renderToUse_builtin_strategy (options : Obj) (providerIcon : JsVal) (s : string) :
  strategyToUse options providerIcon = VStr s →
  s = "ligature" ∨ s = "className" ∨ s = "url" ∨ s = "component" →
  ∃ b, renderToUse options providerIcon = Some (Builtin b).
Proof.
  intros Hs H. rewrite renderToUse_dispatch; rewrite Hs.
  - destruct H as [-> | [-> | [-> | ->]]]; by eexists.
  - destruct H as [-> | [-> | [-> | ->]]]; discriminate.
Qed.


(** X3: when neither the options nor the provider set a strategy, the
    component always renders an [IconRoot] element and logs no error:
    inference only yields strategies the dispatch map has. *)
Theorem Icon_inferred_always_renders
    (icon deprecatedIconOption providerIcon : JsVal) (rest : Obj) :
  let options := iconOptionsRecord icon deprecatedIconOption in
  truthy (getProp options "strategy") = false →
  truthy (providerOption providerIcon "strategy") = false →
  ∃ e, (Icon icon deprecatedIconOption providerIcon rest).2 = Fragment (Rendered e)
       ∧ etype e = "IconRoot"
       ∧ ∀ msg, ConsoleError msg ∉ (Icon icon deprecatedIconOption providerIcon rest).1.
Proof.
  intros options Ho Hp.
  assert (strategyToUse options providerIcon
          = VStr (processAutoStrategy (getProp options "icon"))) as Hs.
  { unfold strategyToUse. apply getIconStrategy_auto.
    by rewrite (jsOr_falsy _ _ Ho), (jsOr_falsy _ _ Hp). }
  destruct (renderToUse_builtin_strategy options providerIcon _ Hs) as [b Hb].
  { destruct (processAutoStrategy_cases (getProp options "icon")) as [-> | [-> | ->]];
      auto. }
  destruct (Icon_by_renderer icon deprecatedIconOption providerIcon rest)
    as (warnings & Hw & ->).
  fold options. rewrite Hb. simpl. eexists. split_and!; [done| by destruct b |].
  intros msg Hin. destruct (truthy deprecatedIconOption).
  - destruct Hw as [c ->]. by apply list_elem_of_singleton in Hin.
  - subst. by apply elem_of_nil in Hin.
Qed.

(** A React element as content, nothing else set: rendered. *)
Lemma Icon_inferred_always_renders_witness :
  ∃ e, (Icon (VElem 7) VUndefined VUndefined ∅).2 = Fragment (Rendered e)
       ∧ etype e = "IconRoot"
       ∧ ∀ msg, ConsoleError msg ∉ (Icon (VElem 7) VUndefined VUndefined ∅).1.
Proof.
  refine (Icon_inferred_always_renders (VElem 7) VUndefined VUndefined ∅ _ _);
    by vm_compute.
Defined.

(** Membership of a name in a list of literal names. *)
Ltac name_not_in :=
  unfold consumedOptions, renderOwnedProps;
  rewrite ?not_elem_of_cons; split_and?; solve [done | apply not_elem_of_nil].

(** What a render function of the dispatch map makes of a property it
    neither sets nor removes. *)
Lemma applyBuiltin_other (b : BuiltinRender) (props : Obj) (k : string) :
  k ∉ renderOwnedProps →
  eprops (applyBuiltin b props) !! k = props !! k.
Proof.
  intros Hk.
  unfold renderOwnedProps in Hk. rewrite !not_elem_of_cons in Hk.
  destruct Hk as (? & ? & ? & ? & ? & _).
  destruct b; simpl; by rewrite ?lookup_insert_ne, lookup_delete_ne by done.
Qed.

Lemma applyBuiltin_shape (b : BuiltinRender) (props : Obj) :
  etype (applyBuiltin b props) = "IconRoot"
  ∧ eprops (applyBuiltin b props) !! "content" = None
  ∧ eprops (applyBuiltin b props) !! "className" = props !! "className".
Proof.
  destruct b; simpl; split_and!; try done;
    by rewrite ?lookup_insert_ne, ?lookup_delete_eq, ?lookup_delete_ne by done.
Qed.

Lemma classList_cons (a : ClassArg) (args : list ClassArg) :
  classList (a :: args) = (classTokens a ++ classList args)%list.
Proof. done. Qed.

Lemma classTokens_string (c : string) :
  c ≠ "" → classTokens (ArgVal (VStr c)) = [c].
Proof. intros H. simpl. by apply String.eqb_neq in H as ->. Qed.

(** X4: whichever render function of the dispatch map is used, the
    result is an [IconRoot] element that does not carry the [content]
    property, and whose [className] is the composed class list, not a
    [className] the caller or the options passed; that list begins with
    the marker class. *)
Theorem Icon_dispatch_element
    (icon deprecatedIconOption providerIcon : JsVal) (rest : Obj) (b : BuiltinRender) :
  let options := iconOptionsRecord icon deprecatedIconOption in
  renderToUse options providerIcon = Some (Builtin b) →
  ∃ e, (Icon icon deprecatedIconOption providerIcon rest).2 = Fragment (Rendered e)
       ∧ etype e = "IconRoot"
       ∧ eprops e !! "content" = None
       ∧ getProp (eprops e) "className"
         = VStr (classNames (iconClassArgs options providerIcon rest))
       ∧ ∃ others,
           classList (iconClassArgs options providerIcon rest) = "rmwc-icon" :: others.
Proof.
  intros options Hb.
  destruct (Icon_by_renderer icon deprecatedIconOption providerIcon rest)
    as (warnings & _ & ->).
  fold options. rewrite Hb. simpl.
  destruct (applyBuiltin_shape b (iconRenderProps options providerIcon rest))
    as (Ht & Hc & Hn).
  eexists. split_and!; [done..| |].
  - unfold getProp. rewrite Hn. unfold iconRenderProps. by rewrite lookup_insert_eq.
  - unfold iconClassArgs. rewrite classList_cons. by eexists.
Qed.

Lemma Icon_dispatch_element_witness :
  ∃ e, (Icon (VStr "home") VUndefined VUndefined
             (<["className" := VStr "big"]> (<["content" := VStr "x"]> ∅))).2
       = Fragment (Rendered e)
       ∧ etype e = "IconRoot"
       ∧ eprops e !! "content" = None
       ∧ getProp (eprops e) "className" = VStr "rmwc-icon big"
       ∧ ∃ others, ["rmwc-icon"; "big"] = "rmwc-icon" :: others.
Proof.
  refine (Icon_dispatch_element (VStr "home") VUndefined VUndefined
            (<["className" := VStr "big"]> (<["content" := VStr "x"]> ∅))
            RenderLigature _).
  by vm_compute.
Defined.

(** X5: the class list of the render keeps every class the parts bring:
    a non-empty basename (the caller's, or the provider's as the
    default), a non-empty [className] of the component's props, and a
    non-empty [className] of the options record. *)
Theorem Icon_class_list_merges (options : Obj) (providerIcon : JsVal) (rest : Obj)
    (c : string) :
  c ≠ "" →
  basenameToUse options providerIcon = VStr c
  ∨ getProp rest "className" = VStr c
  ∨ getProp options "className" = VStr c →
  c ∈ classList (iconClassArgs options providerIcon rest).
Proof.
  intros Hc H. unfold iconClassArgs. rewrite !classList_cons, !elem_of_app.
  destruct H as [H | [H | H]].
  - right; left. rewrite H, classTokens_string by done. by apply list_elem_of_singleton.
  - do 2 right; left. rewrite H, classTokens_string by done.
    by apply list_elem_of_singleton.
  - do 3 right; left.
    assert (getProp (omit ["icon"; "strategy"; "prefix"; "basename"; "render"; "size"]
                          options) "className" = VStr c) as ->.
    { unfold getProp in *. rewrite lookup_omit. by rewrite decide_False by name_not_in. }
    rewrite classTokens_string by done. by apply list_elem_of_singleton.
Qed.

Lemma Icon_class_list_merges_witness :
  "material-icons" ∈
    classList (iconClassArgs (<["icon" := VStr "home"]> ∅)
                 (VObj 1%nat (<["basename" := VStr "material-icons"]> ∅)) ∅).
Proof.
  refine (Icon_class_list_merges (<["icon" := VStr "home"]> ∅)
            (VObj 1%nat (<["basename" := VStr "material-icons"]> ∅)) ∅
            "material-icons" _ _).
  - discriminate.
  - left. by vm_compute.
Defined.

(** X6: under the strategy ["url"] the element is an image of the
    content: [tag] is ["img"] and [src] is the content, also when the
    caller passes a [tag] or [src] of its own. *)
Theorem Icon_url_is_image
    (icon deprecatedIconOption providerIcon : JsVal) (rest : Obj) :
  let options := iconOptionsRecord icon deprecatedIconOption in
  strategyToUse options providerIcon = VStr "url" →
  ∃ e, (Icon icon deprecatedIconOption providerIcon rest).2 = Fragment (Rendered e)
       ∧ getProp (eprops e) "tag" = VStr "img"
       ∧ getProp (eprops e) "src" = getProp options "icon".
Proof.
  intros options Hs.
  assert (renderToUse options providerIcon = Some (Builtin RenderUrl)) as Hb.
  { rewrite renderToUse_dispatch by (rewrite Hs; discriminate). by rewrite Hs. }
  destruct (Icon_by_renderer icon deprecatedIconOption providerIcon rest)
    as (warnings & _ & ->).
  fold options. rewrite Hb. cbn [snd applyBuiltin]. eexists.
  split_and!; [done|..]; cbn [eprops].
  - by rewrite getProp_insert_ne, getProp_insert_eq.
  - rewrite getProp_insert_eq. unfold iconRenderProps.
    by rewrite getProp_insert_ne, getProp_insert_eq.
Qed.

Lemma Icon_url_is_image_witness :
  ∃ e, (Icon (VStr "/a.png") VUndefined VUndefined
             (<["tag" := VStr "span"]> (<["src" := VStr "other"]> ∅))).2
       = Fragment (Rendered e)
       ∧ getProp (eprops e) "tag" = VStr "img"
       ∧ getProp (eprops e) "src" = VStr "/a.png".
Proof.
  refine (Icon_url_is_image (VStr "/a.png") VUndefined VUndefined
            (<["tag" := VStr "span"]> (<["src" := VStr "other"]> ∅)) _).
  by vm_compute.
Defined.

(** X7: the content is the element's child under the strategies
    ["ligature"] and ["component"], replacing any [children] passed
    along; under ["className"] and ["url"] it is not: the element's
    [children] is what the options, or else the props, pass. *)
Theorem Icon_content_as_child
    (icon deprecatedIconOption providerIcon : JsVal) (rest : Obj) (s : string) :
  let options := iconOptionsRecord icon deprecatedIconOption in
  strategyToUse options providerIcon = VStr s →
  (s = "ligature" ∨ s = "component" →
   ∃ e, (Icon icon deprecatedIconOption providerIcon rest).2 = Fragment (Rendered e)
        ∧ eprops e !! "children" = Some (getProp options "icon"))
  ∧ (s = "className" ∨ s = "url" →
     ∃ e, (Icon icon deprecatedIconOption providerIcon rest).2 = Fragment (Rendered e)
          ∧ eprops e !! "children"
            = match options !! "children" with
              | Some v => Some v
              | None => rest !! "children"
              end).
Proof.
  intros options Hs.
  destruct (Icon_by_renderer icon deprecatedIconOption providerIcon rest)
    as (warnings & _ & ->).
  fold options.
  assert (iconRenderProps options providerIcon rest !! "content"
          = Some (getProp options "icon")) as Hcontent.
  { unfold iconRenderProps. by rewrite lookup_insert_ne, lookup_insert_eq. }
  assert (iconRenderProps options providerIcon rest !! "children"
          = match options !! "children" with
            | Some v => Some v
            | None => rest !! "children"
            end) as Hchildren.
  { unfold iconRenderProps, spread. rewrite !lookup_insert_ne by done.
    rewrite lookup_union, lookup_omit. rewrite decide_False by name_not_in.
    destruct (options !! "children"), (rest !! "children"); done. }
  split; intros H;
    (rewrite renderToUse_dispatch by (rewrite Hs; destruct H as [-> | ->]; discriminate));
    rewrite Hs; destruct H as [-> | ->]; simpl; eexists; (split; [done|]); simpl.
  - rewrite lookup_insert_eq. unfold getProp. by rewrite Hcontent.
  - rewrite lookup_insert_eq. unfold getProp. by rewrite Hcontent.
  - by rewrite lookup_delete_ne.
  - by rewrite !lookup_insert_ne, lookup_delete_ne.
Qed.

Lemma Icon_content_as_child_witness :
  ∃ e, (Icon (VStr "home") VUndefined VUndefined
             (<["children" := VStr "ignored"]> ∅)).2 = Fragment (Rendered e)
       ∧ eprops e !! "children" = Some (VStr "home").
Proof.
  refine (proj1 (Icon_content_as_child (VStr "home") VUndefined VUndefined
                   (<["children" := VStr "ignored"]> ∅) "ligature" _) _).
  - by vm_compute.
  - by left.
Defined.

Lemma classTokens_flag (key : string) (flag : bool) :
  classTokens (ArgLit [(key, VBool flag)]) = if flag then [key] else [].
Proof.
  by destruct flag.
Qed.

(** X8: the size modifier closes the class list when the options give a
    size, and is left out when the size is falsy. *)
Theorem Icon_size_class (options : Obj) (providerIcon : JsVal) (rest : Obj) :
  let args := iconClassArgs options providerIcon rest in
  (truthy (getProp options "size") = false →
   classList args = classList (take 5 args))
  ∧ (∀ s, getProp options "size" = VStr s → s ≠ "" →
     classList args = (classList (take 5 args) ++ ["rmwc-icon--size-" +:+ s])%list).
Proof.
  intros args. subst args. unfold iconClassArgs. cbn [take].
  rewrite !classList_cons, classTokens_flag.
  change (classList []) with (@nil string). split.
  - intros ->. by rewrite !app_nil_r.
  - intros s Hs Hne. rewrite Hs.
    assert (truthy (VStr s) = true) as Ht.
    { simpl. by apply negb_true_iff, String.eqb_neq. }
    rewrite Ht, (jsOr_truthy _ _ Ht). cbn [String_].
    by rewrite !app_nil_r, <- !app_assoc.
Qed.

(** X9: what reaches the element besides the properties a render
    function sets itself: the six option names are taken out of the
    options record, so under those names only the component's own props
    are forwarded; under every other name the options record wins over
    the component's props. *)
Theorem Icon_prop_forwarding
    (icon deprecatedIconOption providerIcon : JsVal) (rest : Obj) (b : BuiltinRender) :
  let options := iconOptionsRecord icon deprecatedIconOption in
  renderToUse options providerIcon = Some (Builtin b) →
  ∃ e, (Icon icon deprecatedIconOption providerIcon rest).2 = Fragment (Rendered e)
       ∧ ∀ k, k ∉ renderOwnedProps →
              eprops e !! k
              = if decide (k ∈ consumedOptions) then rest !! k
                else match options !! k with
                     | Some v => Some v
                     | None => rest !! k
                     end.
Proof.
  intros options Hb.
  destruct (Icon_by_renderer icon deprecatedIconOption providerIcon rest)
    as (warnings & _ & ->).
  fold options. rewrite Hb. cbn [snd]. eexists. split; [done|].
  intros k Hk. rewrite applyBuiltin_other by done.
  unfold renderOwnedProps in Hk. rewrite !not_elem_of_cons in Hk.
  destruct Hk as (? & ? & _).
  unfold iconRenderProps, spread. rewrite !lookup_insert_ne by done.
  rewrite lookup_union, lookup_omit.
  destruct (decide (k ∈ consumedOptions)).
  - by destruct (rest !! k).
  - by destruct (options !! k), (rest !! k).
Qed.

Lemma Icon_prop_forwarding_witness :
  ∃ e, (Icon (VObj 1%nat (<["icon" := VStr "home"]> (<["size" := VStr "small"]>
                            (<["title" := VStr "Home"]> ∅))))
             VUndefined VUndefined (<["title" := VStr "t"]> ∅)).2
       = Fragment (Rendered e)
       ∧ eprops e !! "size" = None
       ∧ eprops e !! "title" = Some (VStr "Home").
Proof.
  destruct (Icon_prop_forwarding
              (VObj 1%nat (<["icon" := VStr "home"]> (<["size" := VStr "small"]>
                             (<["title" := VStr "Home"]> ∅))))
              VUndefined VUndefined (<["title" := VStr "t"]> ∅) RenderLigature)
    as (e & He & Hk); [by vm_compute|].
  exists e. split_and!; [done|..].
  - rewrite Hk by name_not_in. by vm_compute.
  - rewrite Hk by name_not_in. by vm_compute.
Defined.

(** X10: under the strategy ["custom"] the caller's render function is
    preferred to the provider's; the one chosen is called with the
    content and the composed class name, and nothing is logged as an
    error. *)
Theorem Icon_custom_render
    (icon deprecatedIconOption providerIcon : JsVal) (rest : Obj) :
  let options := iconOptionsRecord icon deprecatedIconOption in
  let chosen := if truthy (getProp options "render") then getProp options "render"
                else providerOption providerIcon "render" in
  strategyToUse options providerIcon = VStr "custom" →
  truthy chosen = true →
  ∃ props,
    (Icon icon deprecatedIconOption providerIcon rest).2
    = Fragment (Applied (Supplied chosen) props)
    ∧ getProp props "content" = getProp options "icon"
    ∧ getProp props "className"
      = VStr (classNames (iconClassArgs options providerIcon rest))
    ∧ ∀ msg, ConsoleError msg ∉ (Icon icon deprecatedIconOption providerIcon rest).1.
Proof.
  intros options chosen Hs Hc.
  destruct (Icon_by_renderer icon deprecatedIconOption providerIcon rest)
    as (warnings & Hw & ->).
  fold options. rewrite renderToUse_custom by done. cbn zeta.
  unfold jsOr. fold chosen. rewrite Hc. cbn [fst snd].
  eexists. split_and!; [done|..].
  - unfold iconRenderProps. by rewrite getProp_insert_ne, getProp_insert_eq.
  - unfold iconRenderProps. by rewrite getProp_insert_eq.
  - intros msg Hin. destruct (truthy deprecatedIconOption).
    + destruct Hw as [c ->]. by apply list_elem_of_singleton in Hin.
    + subst. by apply elem_of_nil in Hin.
Qed.

Lemma Icon_custom_render_witness :
  ∃ props,
    (Icon (VObj 1%nat (<["icon" := VStr "home"]> (<["strategy" := VStr "custom"]>
                         (<["render" := VFun 2 "mine"]> ∅))))
          VUndefined (VObj 3%nat (<["render" := VFun 4 "theirs"]> ∅)) ∅).2
    = Fragment (Applied (Supplied (VFun 2 "mine")) props).
Proof.
  destruct (Icon_custom_render
              (VObj 1%nat (<["icon" := VStr "home"]> (<["strategy" := VStr "custom"]>
                             (<["render" := VFun 2 "mine"]> ∅))))
              VUndefined (VObj 3%nat (<["render" := VFun 4 "theirs"]> ∅)) ∅)
    as (props & H & _); [by vm_compute.. |].
  by exists props.
Defined.

(** ** The options of the [icon] prop *)

Lemma ownProps_falsy (v : JsVal) : truthy v = false → ownProps v = ∅.
Proof. by destruct v. Qed.

(** The render depends on the [icon] prop through the options record,
    and through the deprecation warning when there is one. *)
Lemma Icon_same_options (icon icon' deprecatedIconOption providerIcon : JsVal) (rest : Obj) :
  truthy deprecatedIconOption = false →
  iconOptionsRecord icon deprecatedIconOption
  = iconOptionsRecord icon' deprecatedIconOption →
  Icon icon deprecatedIconOption providerIcon rest
  = Icon icon' deprecatedIconOption providerIcon rest.
Proof. intros Hd Ho. unfold Icon. by rewrite Hd, Ho. Qed.

(** X11: content passed directly (a React element, or any truthy value
    that is no object) renders exactly like the options record
    [{icon: content}]. *)
Theorem Icon_content_is_icon_option
    (content deprecatedIconOption providerIcon : JsVal) (rest : Obj) (ref : nat) :
  isValidElement content = true
  ∨ (truthy content = true ∧ typeof content ≠ "object") →
  truthy deprecatedIconOption = false →
  Icon content deprecatedIconOption providerIcon rest
  = Icon (VObj ref (<["icon" := content]> ∅)) deprecatedIconOption providerIcon rest.
Proof.
  intros Hc Hd. apply Icon_same_options; [done|].
  unfold iconOptionsRecord, buildIconOptions. f_equal.
  assert (isValidElement content
          || truthy content && negb (String.eqb (typeof content) "object") = true) as ->.
  { destruct Hc as [-> | [-> Ht]]; [done|].
    apply String.eqb_neq in Ht as ->. by rewrite orb_true_r. }
  done.
Qed.

Lemma Icon_content_is_icon_option_witness :
  Icon (VStr "home") VUndefined VUndefined ∅
  = Icon (VObj 5%nat (<["icon" := VStr "home"]> ∅)) VUndefined VUndefined ∅.
Proof.
  refine (Icon_content_is_icon_option (VStr "home") VUndefined VUndefined ∅ 5 _ _).
  - right. by split.
  - done.
Defined.

(** X12: a falsy [icon] prop (the empty string, [null], [false], [0])
    is no content at all: the options record is the deprecated
    [iconOptions] alone, and without one the render is that of a missing
    [icon] prop, with [undefined] as content. *)
Theorem Icon_falsy_content
    (content deprecatedIconOption providerIcon : JsVal) (rest : Obj) :
  truthy content = false →
  iconOptionsRecord content deprecatedIconOption = ownProps deprecatedIconOption
  ∧ (truthy deprecatedIconOption = false →
     getProp (iconOptionsRecord content deprecatedIconOption) "icon" = VUndefined
     ∧ Icon content deprecatedIconOption providerIcon rest
       = Icon VUndefined deprecatedIconOption providerIcon rest).
Proof.
  intros Hc.
  assert (∀ v, truthy v = false →
               iconOptionsRecord v deprecatedIconOption = ownProps deprecatedIconOption)
    as Hrec.
  { intros v Hv. unfold iconOptionsRecord, buildIconOptions, spread.
    rewrite Hv. replace (isValidElement v) with false by (by destruct v).
    cbn [orb andb]. rewrite (ownProps_falsy v Hv). apply (right_id_L ∅ (∪)). }
  split; [by apply Hrec|]. intros Hd. split.
  - rewrite Hrec by done. by rewrite ownProps_falsy.
  - apply Icon_same_options; [done|]. by rewrite !Hrec.
Qed.

Lemma Icon_falsy_content_witness :
  iconOptionsRecord (VStr "") VUndefined = ownProps VUndefined
  ∧ (truthy VUndefined = false →
     getProp (iconOptionsRecord (VStr "") VUndefined) "icon" = VUndefined
     ∧ Icon (VStr "") VUndefined VUndefined ∅ = Icon VUndefined VUndefined VUndefined ∅).
Proof. exact (Icon_falsy_content (VStr "") VUndefined VUndefined ∅ eq_refl). Defined.

(** ** The provider's defaults *)

(** The render reads the provider's icon configuration through its four
    defaults only. *)
Lemma Icon_same_provider_defaults
    (icon deprecatedIconOption providerIcon providerIcon' : JsVal) (rest : Obj) :
  (∀ k, providerOption providerIcon k = providerOption providerIcon' k) →
  Icon icon deprecatedIconOption providerIcon rest
  = Icon icon deprecatedIconOption providerIcon' rest.
Proof.
  intros H.
  unfold Icon, renderToUse, iconClassArgs, iconClassName, basenameToUse,
    prefixToUse, strategyToUse.
  by rewrite !H.
Qed.

(** X13: a provider without icon configuration (a falsy
    [providerContext.icon]) gives the same render as one whose
    configuration is the empty record: every default is [null]. *)
Theorem Icon_without_provider_config
    (icon deprecatedIconOption providerIcon : JsVal) (rest : Obj) (ref : nat) :
  truthy providerIcon = false →
  (∀ k, providerOption providerIcon k = VNull)
  ∧ Icon icon deprecatedIconOption providerIcon rest
    = Icon icon deprecatedIconOption (VObj ref ∅) rest.
Proof.
  intros Hp.
  assert (∀ k, providerOption providerIcon k = VNull) as Hnull.
  { intros k. unfold providerOption. by rewrite (jsOr_falsy _ _ Hp). }
  split; [done|]. apply Icon_same_provider_defaults. intros k. by rewrite Hnull.
Qed.

Lemma Icon_without_provider_config_witness :
  Icon (VStr "home") VUndefined VUndefined ∅
  = Icon (VStr "home") VUndefined (VObj 9%nat ∅) ∅.
Proof.
  exact (proj2 (Icon_without_provider_config (VStr "home") VUndefined VUndefined ∅ 9
                  eq_refl)).
Defined.

(** ** Where the render misses *)

Lemma iconRenderMap_inherited (member : string) :
  member ∈ objectPrototypeMembers →
  iconRenderMap member = Some (Inherited member)
  ∧ VStr member ≠ VStr "custom" ∧ truthy (VStr member) = true.
Proof.
  unfold objectPrototypeMembers. rewrite !elem_of_cons.
  intros H. repeat (destruct H as [-> | H]; [by split_and!|]).
  by apply elem_of_nil in H.
Qed.

(** C6, a defect of the code: a resolved strategy that names a member
    [iconRenderMap] inherits from [Object.prototype] has no render
    function in the dispatch map, yet no error is logged and [null] is
    not returned: the inherited member is called with the render props,
    and for [__proto__], which is no function, that call throws a
    [TypeError]. *)
Theorem Icon_inherited_member_is_called
    (icon deprecatedIconOption providerIcon : JsVal) (rest : Obj) (member : string) :
  let options := iconOptionsRecord icon deprecatedIconOption in
  strategyToUse options providerIcon = VStr member →
  member ∈ objectPrototypeMembers →
  (∀ msg, ConsoleError msg ∉ (Icon icon deprecatedIconOption providerIcon rest).1)
  ∧ (∃ props, (Icon icon deprecatedIconOption providerIcon rest).2
              = Fragment (Applied (Inherited member) props))
  ∧ completion (Icon icon deprecatedIconOption providerIcon rest).2 ≠ ReturnsNull
  ∧ (member = "__proto__" →
     completion (Icon icon deprecatedIconOption providerIcon rest).2 = ThrowsTypeError).
Proof.
  intros options Hs Hm.
  destruct (iconRenderMap_inherited member Hm) as (Hmap & Hc & Ht).
  assert (renderToUse options providerIcon = Some (Inherited member)) as Hr.
  { rewrite renderToUse_dispatch by (by rewrite Hs). rewrite Hs, Ht. exact Hmap. }
  destruct (Icon_by_renderer icon deprecatedIconOption providerIcon rest)
    as (warnings & Hw & ->).
  fold options. rewrite Hr. cbn [fst snd completion]. split_and!.
  - intros msg Hin. destruct (truthy deprecatedIconOption).
    + destruct Hw as [c ->]. by apply list_elem_of_singleton in Hin.
    + subst. by apply elem_of_nil in Hin.
  - by eexists.
  - by destruct (callable (Inherited member)).
  - by intros ->.
Qed.

(** The strategy [__proto__]: nothing logged, a [TypeError] thrown. *)
Lemma Icon_inherited_member_is_called_witness :
  (∀ msg, ConsoleError msg ∉
     (Icon (VObj 1%nat (<["icon" := VStr "home"]> (<["strategy" := VStr "__proto__"]> ∅)))
           VUndefined VUndefined ∅).1)
  ∧ completion
      (Icon (VObj 1%nat (<["icon" := VStr "home"]> (<["strategy" := VStr "__proto__"]> ∅)))
            VUndefined VUndefined ∅).2
    = ThrowsTypeError.
Proof.
  destruct (Icon_inherited_member_is_called
              (VObj 1%nat (<["icon" := VStr "home"]> (<["strategy" := VStr "__proto__"]> ∅)))
              VUndefined VUndefined ∅ "__proto__")
    as (Hlog & _ & _ & Hthrow).
  - by vm_compute.
  - unfold objectPrototypeMembers. do 11 right. by left.
  - split; [exact Hlog | by apply Hthrow].
Defined.

(** The strategy [toString]: nothing logged, and [Object.prototype.toString]
    is what gets called. *)
Example Icon_strategy_toString :
  (Icon (VObj 1%nat (<["icon" := VStr "home"]> (<["strategy" := VStr "toString"]> ∅)))
        VUndefined VUndefined ∅).1 = []
  ∧ ∃ props,
      completion
        (Icon (VObj 1%nat (<["icon" := VStr "home"]> (<["strategy" := VStr "toString"]> ∅)))
              VUndefined VUndefined ∅).2
      = CallsOut (Inherited "toString") props.
Proof. split; [by vm_compute | eexists; by vm_compute]. Qed.

Lemma null_prefix_nonempty (content : string) : "null" +:+ content ≠ "".
Proof. by destruct content. Qed.

Lemma null_prefix_differs (content : string) : "null" +:+ content ≠ content.
Proof.
  assert (∀ s, String.length ("null" +:+ s) = S (S (S (S (String.length s))))) as Hlen.
  { intros s. reflexivity. }
  intros H. apply (f_equal String.length) in H. rewrite Hlen in H. lia.
Qed.

(** C5, a defect of the code: text content rendered under the resolved
    strategy ["className"] when neither the caller nor the provider
    supplies a prefix.  The class is not the content under an empty
    prefix: the missing prefix is converted by [String], so the class is
    ["null"] then the content, and that is the class in the rendered
    list. *)
Theorem Icon_className_null_prefix
    (icon deprecatedIconOption providerIcon : JsVal) (rest : Obj) (content : string) :
  let options := iconOptionsRecord icon deprecatedIconOption in
  getProp options "icon" = VStr content →
  strategyToUse options providerIcon = VStr "className" →
  truthy (getProp options "prefix") = false →
  providerOption providerIcon "prefix" = VNull →
  iconClassName options providerIcon = VStr ("null" +:+ content)
  ∧ iconClassName options providerIcon ≠ VStr content
  ∧ ∃ e, (Icon icon deprecatedIconOption providerIcon rest).2 = Fragment (Rendered e)
         ∧ getProp (eprops e) "className"
           = VStr (classNames (iconClassArgs options providerIcon rest))
         ∧ "null" +:+ content ∈ classList (iconClassArgs options providerIcon rest).
Proof.
  intros options Hc Hs Hp Hprov.
  assert (iconClassName options providerIcon = VStr ("null" +:+ content)) as Hcls.
  { unfold iconClassName, prefixToUse. by rewrite Hs, Hc, (jsOr_falsy _ _ Hp), Hprov. }
  split_and!; [done| |].
  - rewrite Hcls. intros [= H]. by apply (null_prefix_differs content).
  - assert (renderToUse options providerIcon = Some (Builtin RenderClassName)) as Hr.
    { rewrite renderToUse_dispatch by (rewrite Hs; discriminate). by rewrite Hs. }
    destruct (Icon_by_renderer icon deprecatedIconOption providerIcon rest)
      as (warnings & _ & ->).
    fold options. rewrite Hr. cbn [snd]. eexists. split_and!; [done|..].
    + destruct (applyBuiltin_shape RenderClassName
                  (iconRenderProps options providerIcon rest)) as (_ & _ & Hn).
      unfold getProp. rewrite Hn. unfold iconRenderProps. by rewrite lookup_insert_eq.
    + unfold iconClassArgs. rewrite !classList_cons, !elem_of_app. do 4 right; left.
      rewrite Hcls, classTokens_string by apply null_prefix_nonempty.
      by apply list_elem_of_singleton.
Qed.

(** Content ["home"], no prefix anywhere: the class ["nullhome"]. *)
Lemma Icon_className_null_prefix_witness :
  iconClassName
    (iconOptionsRecord
       (VObj 1%nat (<["icon" := VStr "home"]> (<["strategy" := VStr "className"]> ∅)))
       VUndefined)
    VUndefined
  = VStr "nullhome".
Proof.
  refine (proj1 (Icon_className_null_prefix
            (VObj 1%nat (<["icon" := VStr "home"]> (<["strategy" := VStr "className"]> ∅)))
            VUndefined VUndefined ∅ "home" _ _ _ _)); by vm_compute.
Defined.

(** ** More on the deprecation resolver *)

Section DeprecationPasses.
Variable displayName : string.

Implicit Types (props : Obj) (log : list Diagnostic) (deprecate : DeprecationMap).

(** An entry leaves every property but its two names alone. *)
Lemma applyDeprecation_other props log oldName newName k :
  k ≠ oldName → k ≠ newName →
  getProp (applyDeprecation displayName (props, log) (oldName, newName)).1 k
  = getProp props k.
Proof.
  intros Ho Hn. unfold applyDeprecation.
  destruct (strict_eq (getProp props oldName) VUndefined); [done|].
  destruct (String.eqb newName ""); simpl; rewrite getProp_delete_ne by done;
    [done|].
  destruct (strict_eq (getProp props newName) VUndefined); [|done].
  by rewrite getProp_insert_ne.
Qed.

(** An entry whose deprecated key is set and whose replacement is not
    hands the value over. *)
Lemma applyDeprecation_fills props log oldName newName :
  newName ≠ "" → oldName ≠ newName →
  getProp props oldName ≠ VUndefined → getProp props newName = VUndefined →
  getProp (applyDeprecation displayName (props, log) (oldName, newName)).1 newName
  = getProp props oldName.
Proof.
  intros Hne Hon Hold Hnew. unfold applyDeprecation.
  destruct (strict_eq (getProp props oldName) VUndefined) eqn:E.
  { by apply strict_eq_undefined in E. }
  apply String.eqb_neq in Hne as ->. rewrite Hnew. simpl.
  rewrite getProp_delete_ne by done. apply getProp_insert_eq.
Qed.

Lemma foldl_applyDeprecation_other deprecate props log k :
  k ∉ deprecate.*1 → k ∉ deprecate.*2 →
  getProp (foldl (applyDeprecation displayName) (props, log) deprecate).1 k
  = getProp props k.
Proof.
  revert props log.
  induction deprecate as [|[oldName newName] deprecate IH];
    intros props log Ho Hn; [done|].
  apply not_elem_of_cons in Ho as [Ho Hos], Hn as [Hn Hns]. simpl in Ho, Hn.
  cbn [foldl].
  pose proof (applyDeprecation_other props log oldName newName k Ho Hn) as Hstep.
  destruct (applyDeprecation displayName (props, log) (oldName, newName))
    as [props' log'].
  simpl in Hstep. by rewrite IH.
Qed.

Lemma foldl_applyDeprecation_fills deprecate props log oldName newName :
  (oldName, newName) ∈ deprecate →
  (∀ e, e ∈ deprecate → e.1 = oldName ∨ e.2 = newName → e = (oldName, newName)) →
  newName ≠ "" → newName ∉ deprecate.*1 → oldName ∉ deprecate.*2 →
  getProp props oldName ≠ VUndefined → getProp props newName = VUndefined →
  getProp (foldl (applyDeprecation displayName) (props, log) deprecate).1 newName
  = getProp props oldName.
Proof.
  revert props log.
  induction deprecate as [|[o n] deprecate IH];
    intros props log Hin Huniq Hne Hnew Hold Hset Hunset.
  { by apply elem_of_nil in Hin. }
  apply not_elem_of_cons in Hnew as [Hnew Hnews], Hold as [Hold Holds].
  simpl in Hnew, Hold. cbn [foldl].
  destruct (decide ((o, n) = (oldName, newName))) as [[= -> ->]|Hother].
  - pose proof (applyDeprecation_fills props log oldName newName Hne
                  (not_eq_sym Hnew) Hset Hunset) as Hstep.
    destruct (applyDeprecation displayName (props, log) (oldName, newName))
      as [props' log'].
    simpl in Hstep. rewrite foldl_applyDeprecation_keeps_set; [done| |done].
    by rewrite Hstep.
  - assert (o ≠ oldName ∧ n ≠ newName) as [Ho Hn].
    { split; intros ->; apply Hother, (Huniq (_, _)); [left|by left|left|by right]. }
    apply elem_of_cons in Hin as [Hin|Hin]; [by symmetry in Hin|].
    pose proof (applyDeprecation_other props log o n oldName
                  (not_eq_sym Ho) Hold) as Hstep1.
    pose proof (applyDeprecation_other props log o n newName
                  Hnew (not_eq_sym Hn)) as Hstep2.
    destruct (applyDeprecation displayName (props, log) (o, n)) as [props' log'].
    simpl in Hstep1, Hstep2. rewrite IH; try done.
    + intros e He. apply Huniq. by right.
    + by rewrite Hstep1.
    + by rewrite Hstep2.
Qed.

(** The diagnostics of a pass: one per entry whose deprecated key is set
    in the props handed in, in the order of the map. *)
Lemma foldl_applyDeprecation_log deprecate props log :
  NoDup deprecate.*1 → (∀ k, k ∈ deprecate.*1 → k ∉ deprecate.*2) →
  (foldl (applyDeprecation displayName) (props, log) deprecate).2
  = (log ++ map (deprecationDiagnostic displayName)
              (deprecatedPresent props deprecate))%list.
Proof.
  revert props log.
  induction deprecate as [|[o n] deprecate IH]; intros props log Hnd Hdisj.
  { simpl. by rewrite app_nil_r. }
  unfold deprecatedPresent in *.
  apply NoDup_cons in Hnd as [Ho Hnd]. cbn [foldl List.filter fst].
  assert (∀ k, k ∈ deprecate.*1 → k ∉ deprecate.*2) as Hdisj'.
  { intros k Hk Hk'. apply (Hdisj k); by right. }
  destruct (strict_eq (getProp props o) VUndefined) eqn:E.
  { rewrite applyDeprecation_absent by (by apply strict_eq_undefined).
    by apply IH. }
  assert (∀ e, e ∈ deprecate →
               getProp (applyDeprecation displayName (props, log) (o, n)).1 e.1
               = getProp props e.1) as Hsame.
  { intros [o' n'] He. apply applyDeprecation_other; simpl.
    - intros ->. apply Ho. apply list_elem_of_fmap. by exists (o, n').
    - intros ->. apply (Hdisj n).
      + right. apply list_elem_of_fmap. by exists (n, n').
      + by left. }
  assert ((applyDeprecation displayName (props, log) (o, n)).2
          = (log ++ [deprecationDiagnostic displayName (o, n)])%list) as Hlog.
  { unfold applyDeprecation, deprecationDiagnostic. rewrite E. simpl.
    by destruct (String.eqb n ""). }
  destruct (applyDeprecation displayName (props, log) (o, n)) as [props' log'].
  simpl in Hsame, Hlog. subst log'. rewrite IH by done. cbn [negb map].
  rewrite <- app_assoc. cbn [app]. do 3 f_equal.
  apply filter_ext_in. intros e He. rewrite Hsame; [done|].
  by apply list_elem_of_In.
Qed.

End DeprecationPasses.

(** ** The deprecation map of the Snackbar *)

Lemma Snackbar_deprecated_names_distinct : NoDup Snackbar.deprecations.*1.
Proof. apply (bool_decide_unpack (NoDup Snackbar.deprecations.*1)). by vm_compute. Qed.

Lemma Snackbar_entry_unique (oldName newName : string) (e : string * string) :
  (oldName, newName) ∈ Snackbar.deprecations → newName ≠ "" →
  e ∈ Snackbar.deprecations → e.1 = oldName ∨ e.2 = newName →
  e = (oldName, newName).
Proof.
  intros Hin Hne He.
  assert (Forall (λ p : string * string, p.2 ≠ "" →
            Forall (λ e : string * string, e.1 = p.1 ∨ e.2 = p.2 → e = p)
                   Snackbar.deprecations)
          Snackbar.deprecations) as H.
  { apply (bool_decide_unpack _). by vm_compute. }
  rewrite Forall_forall in H. specialize (H _ Hin Hne).
  rewrite Forall_forall in H. by apply H.
Qed.

Lemma Snackbar_alias_value (props : Obj) (oldName newName : string) :
  (oldName, newName) ∈ Snackbar.deprecations → newName ≠ "" →
  getProp props oldName ≠ VUndefined → getProp props newName = VUndefined →
  getProp (Snackbar.getPropsWithDeprecations props).1 newName = getProp props oldName.
Proof.
  intros Hin Hne Hold Hnew.
  destruct (Snackbar_replacement_names oldName newName Hin Hne) as (Hn & _ & Ho).
  apply foldl_applyDeprecation_fills; try done.
  intros e He. by apply Snackbar_entry_unique.
Qed.

(** X14: a deprecated Snackbar property that is supplied while its
    replacement is not gives the replacement its value ([show] stands in
    for a missing [open], and so on for the four other aliases). *)
Theorem Snackbar_alias_fills_replacement (props : Obj) (oldName newName : string) :
  (oldName, newName) ∈ Snackbar.deprecations → newName ≠ "" →
  getProp props oldName ≠ VUndefined → getProp props newName = VUndefined →
  getProp (Snackbar.getPropsWithDeprecations props).1 newName = getProp props oldName.
Proof. apply Snackbar_alias_value. Qed.

Lemma Snackbar_alias_fills_replacement_witness :
  getProp (Snackbar.getPropsWithDeprecations
             (<["alignStart" := VBool true]> (<["message" := VStr "hi"]> ∅))).1
          "leading"
  = VBool true.
Proof.
  refine (Snackbar_alias_fills_replacement
            (<["alignStart" := VBool true]> (<["message" := VStr "hi"]> ∅))
            "alignStart" "leading" _ _ _ _).
  - do 3 right. by left.
  - discriminate.
  - by vm_compute.
  - by vm_compute.
Defined.

(** X15: in the normalized Snackbar props no deprecated name is set any
    more, and every property that is neither a deprecated name nor a
    replacement name is as it was supplied. *)
Theorem Snackbar_normalized_props (props : Obj) :
  (∀ k, k ∈ Snackbar.deprecations.*1 →
        getProp (Snackbar.getPropsWithDeprecations props).1 k = VUndefined)
  ∧ (∀ k, k ∉ Snackbar.deprecations.*1 → k ∉ Snackbar.deprecations.*2 →
          getProp (Snackbar.getPropsWithDeprecations props).1 k = getProp props k).
Proof.
  split.
  - intros k Hk. apply foldl_applyDeprecation_removes; [by left|].
    by apply Snackbar_replacements_not_deprecated.
  - intros k Ho Hn. by apply foldl_applyDeprecation_other.
Qed.

(** X16: normalizing Snackbar props emits one diagnostic for each
    deprecated name that is set in them, in the order of the map, and no
    other; props in which none is set come back unchanged, in silence. *)
Theorem Snackbar_deprecation_diagnostics (props : Obj) :
  (Snackbar.getPropsWithDeprecations props).2
  = map (deprecationDiagnostic "Snackbar")
        (deprecatedPresent props Snackbar.deprecations)
  ∧ ((∀ k, k ∈ Snackbar.deprecations.*1 → getProp props k = VUndefined) →
     Snackbar.getPropsWithDeprecations props = (props, [])).
Proof.
  split.
  - unfold Snackbar.getPropsWithDeprecations, handleDeprecations.
    rewrite foldl_applyDeprecation_log; [done| |].
    + apply Snackbar_deprecated_names_distinct.
    + apply Snackbar_replacements_not_deprecated.
  - intros H. by apply foldl_applyDeprecation_id.
Qed.

(** ** More on the Snackbar *)

Lemma strict_eq_refl (v : JsVal) : strict_eq v v = true.
Proof.
  destruct v as [| |[]| | | | |]; simpl;
    by rewrite ?Z.eqb_refl, ?String.eqb_refl, ?Nat.eqb_refl.
Qed.

Lemma sync_timeout (props prevProps : Obj) (w : Snackbar.World) :
  Snackbar.autoDismissTimeoutMs_ (Snackbar.foundation (Snackbar.sync props prevProps w)) =
    if negb (strict_eq (getProp (Snackbar.getPropsWithDeprecations props).1 "timeout")
                       (getProp (Snackbar.getPropsWithDeprecations prevProps).1 "timeout"))
    then getProp (Snackbar.getPropsWithDeprecations props).1 "timeout"
    else Snackbar.autoDismissTimeoutMs_ (Snackbar.foundation w).
Proof.
  unfold Snackbar.sync.
  destruct (Snackbar.getPropsWithDeprecations props) as [p d1].
  destruct (Snackbar.getPropsWithDeprecations prevProps) as [q d2]. simpl.
  by destruct (negb (strict_eq (getProp p "open") (getProp q "open"))
               && truthy (getProp p "open"));
    destruct (negb (strict_eq (getProp p "timeout") (getProp q "timeout"))).
Qed.

(** X17: [sync] patches the foundation's timer setting with the new
    timeout whenever it differs from the previous one, also when the new
    one is absent (the setting becomes [undefined]), and leaves the
    setting alone when the two are the same. *)
Theorem sync_patches_timeout (props prevProps : Obj) (w : Snackbar.World) :
  let now := getProp (Snackbar.getPropsWithDeprecations props).1 "timeout" in
  let before := getProp (Snackbar.getPropsWithDeprecations prevProps).1 "timeout" in
  numberOrAbsent now → numberOrAbsent before →
  (now ≠ before →
   Snackbar.autoDismissTimeoutMs_ (Snackbar.foundation (Snackbar.sync props prevProps w))
   = now)
  ∧ (now = before →
     Snackbar.autoDismissTimeoutMs_ (Snackbar.foundation (Snackbar.sync props prevProps w))
     = Snackbar.autoDismissTimeoutMs_ (Snackbar.foundation w)).
Proof.
  intros now before Hn Hb. rewrite sync_timeout. fold now before. split.
  - intros Hne.
    destruct Hn as [Hn | [n Hn]], Hb as [Hb | [m Hb]]; rewrite Hn, Hb in *; try done.
    simpl. destruct (Z.eqb_spec n m) as [->|]; done.
  - intros ->. by rewrite strict_eq_refl.
Qed.

Lemma sync_patches_timeout_witness :
  Snackbar.autoDismissTimeoutMs_
    (Snackbar.foundation
       (Snackbar.sync (<["open" := VBool true]> ∅)
          (<["open" := VBool true]> (<["timeout" := VNum 3000]> ∅))
          (Snackbar.MkWorld (Snackbar.MkFoundation [] (VNum 3000)) [])))
  = VUndefined.
Proof.
  refine (proj1 (sync_patches_timeout (<["open" := VBool true]> ∅)
                   (<["open" := VBool true]> (<["timeout" := VNum 3000]> ∅))
                   (Snackbar.MkWorld (Snackbar.MkFoundation [] (VNum 3000)) []) _ _) _).
  - by left.
  - right. by exists 3000.
  - by vm_compute.
Defined.

(** X18: a [sync] in which neither the normalized open flag nor the
    normalized timeout changes leaves the foundation untouched: no call,
    no patch; so does, in particular, a [sync] with the same props. *)
Theorem sync_without_change (props prevProps : Obj) (w : Snackbar.World) :
  getProp (Snackbar.getPropsWithDeprecations props).1 "open"
  = getProp (Snackbar.getPropsWithDeprecations prevProps).1 "open" →
  getProp (Snackbar.getPropsWithDeprecations props).1 "timeout"
  = getProp (Snackbar.getPropsWithDeprecations prevProps).1 "timeout" →
  Snackbar.foundation (Snackbar.sync props prevProps w) = Snackbar.foundation w.
Proof.
  intros Ho Ht.
  pose proof (sync_calls props prevProps w) as Hc.
  pose proof (sync_timeout props prevProps w) as Hm.
  rewrite Ho, strict_eq_refl in Hc. rewrite Ht, strict_eq_refl in Hm.
  simpl in Hc, Hm. rewrite app_nil_r in Hc.
  destruct (Snackbar.foundation (Snackbar.sync props prevProps w)) as [c t].
  destruct (Snackbar.foundation w) as [c' t']. simpl in *. by subst.
Qed.

Lemma sync_without_change_witness :
  Snackbar.foundation
    (Snackbar.sync (<["open" := VBool true]> (<["message" := VStr "b"]> ∅))
       (<["show" := VBool true]> (<["message" := VStr "a"]> ∅))
       (Snackbar.MkWorld (Snackbar.MkFoundation [Snackbar.FOpen] VUndefined) []))
  = Snackbar.MkFoundation [Snackbar.FOpen] VUndefined.
Proof.
  refine (sync_without_change
            (<["open" := VBool true]> (<["message" := VStr "b"]> ∅))
            (<["show" := VBool true]> (<["message" := VStr "a"]> ∅))
            (Snackbar.MkWorld (Snackbar.MkFoundation [Snackbar.FOpen] VUndefined) [])
            _ _); by vm_compute.
Defined.

(** X19: the deprecated [show] flag still opens the Snackbar: with
    [show] true and no [open] in the new props, and an open flag that was
    false or absent before, [sync] calls the foundation's [open] once. *)
Theorem sync_deprecated_show_opens (props prevProps : Obj) (w : Snackbar.World) :
  getProp props "show" = VBool true →
  getProp props "open" = VUndefined →
  getProp (Snackbar.getPropsWithDeprecations prevProps).1 "open" = VBool false
  ∨ getProp (Snackbar.getPropsWithDeprecations prevProps).1 "open" = VUndefined →
  Snackbar.calls (Snackbar.foundation (Snackbar.sync props prevProps w))
  = (Snackbar.calls (Snackbar.foundation w) ++ [Snackbar.FOpen])%list.
Proof.
  intros Hshow Hopen Hbefore. rewrite sync_calls.
  rewrite (Snackbar_alias_value props "show" "open"), Hshow;
    [|by left|done|by rewrite Hshow|done].
  by destruct Hbefore as [-> | ->].
Qed.

Lemma sync_deprecated_show_opens_witness :
  Snackbar.calls (Snackbar.foundation
    (Snackbar.sync (<["show" := VBool true]> ∅) ∅
       (Snackbar.MkWorld (Snackbar.MkFoundation [] VUndefined) [])))
  = [Snackbar.FOpen].
Proof.
  refine (sync_deprecated_show_opens (<["show" := VBool true]> ∅) ∅
            (Snackbar.MkWorld (Snackbar.MkFoundation [] VUndefined) []) _ _ _).
  - by vm_compute.
  - by vm_compute.
  - right. by vm_compute.
Defined.

(** X20: [dismissesOnAction] defaults to true: when the prop is not
    supplied, a click on an element carrying the action class invokes the
    action-button entry point of the foundation (once, and nothing
    else); a supplied value is what [this.props] holds. *)
Theorem handleSurfaceClick_default_dismisses
    (props : Obj) (evt : Snackbar.Event) (w : Snackbar.World) (classList : list string) :
  Snackbar.target evt = Snackbar.ElementTarget classList →
  "mdc-snackbar__action" ∈ classList →
  (getProp props "dismissesOnAction" = VUndefined →
   Snackbar.handleSurfaceClick (Snackbar.withDefaultProps props) evt w
   = Snackbar.invoke (Snackbar.FHandleActionButtonClick evt) w)
  ∧ (getProp props "dismissesOnAction" ≠ VUndefined →
     Snackbar.withDefaultProps props = props).
Proof.
  intros Ht Ha. split.
  - intros Hd. unfold Snackbar.handleSurfaceClick, Snackbar.contains.
    rewrite Ht, (withDefaultProps_dismissesOnAction props Hd). simpl.
    by rewrite (bool_decide_eq_true_2 _ Ha).
  - intros Hd. unfold Snackbar.withDefaultProps.
    destruct (strict_eq _ VUndefined) eqn:E; [|done].
    by apply strict_eq_undefined in E.
Qed.

Lemma handleSurfaceClick_default_dismisses_witness :
  Snackbar.calls (Snackbar.foundation
    (Snackbar.handleSurfaceClick (Snackbar.withDefaultProps ∅)
       (Snackbar.MkEvent 1 (Snackbar.ElementTarget ["mdc-button"; "mdc-snackbar__action"]))
       (Snackbar.MkWorld (Snackbar.MkFoundation [] VUndefined) [])))
  = [Snackbar.FHandleActionButtonClick
       (Snackbar.MkEvent 1 (Snackbar.ElementTarget ["mdc-button"; "mdc-snackbar__action"]))].
Proof.
  rewrite (proj1 (handleSurfaceClick_default_dismisses ∅
             (Snackbar.MkEvent 1 (Snackbar.ElementTarget ["mdc-button"; "mdc-snackbar__action"]))
             (Snackbar.MkWorld (Snackbar.MkFoundation [] VUndefined) [])
             ["mdc-button"; "mdc-snackbar__action"] eq_refl
             ltac:(right; left)) eq_refl).
  reflexivity.
Defined.

Lemma getProp_omit (ks : list string) (o : Obj) (k : string) :
  getProp (omit ks o) k = if decide (k ∈ ks) then VUndefined else getProp o k.
Proof. unfold getProp. rewrite lookup_omit. by destruct (decide (k ∈ ks)). Qed.

(** X21: what the Snackbar's [render] spreads on its root element: none
    of the nine names it takes out and no deprecated name; every other
    supplied property that is not a replacement name, as supplied; and
    under a replacement name it does not take out ([leading], [stacked])
    the value of the deprecated alias when only the alias is supplied. *)
Theorem Snackbar_render_rest (thisProps : Obj) :
  (∀ k, k ∈ snackbarRenderConsumed ∨ k ∈ Snackbar.deprecations.*1 →
        getProp (snackbarRenderRest thisProps) k = VUndefined)
  ∧ (∀ k, k ∉ snackbarRenderConsumed →
          k ∉ Snackbar.deprecations.*1 → k ∉ Snackbar.deprecations.*2 →
          getProp (snackbarRenderRest thisProps) k = getProp thisProps k)
  ∧ (∀ oldName newName,
       (oldName, newName) ∈ Snackbar.deprecations →
       newName ≠ "" → newName ∉ snackbarRenderConsumed →
       getProp thisProps oldName ≠ VUndefined →
       getProp thisProps newName = VUndefined →
       getProp (snackbarRenderRest thisProps) newName = getProp thisProps oldName).
Proof.
  unfold snackbarRenderRest. split_and!.
  - intros k Hk. rewrite getProp_omit. destruct (decide _); [done|].
    destruct Hk as [Hk|Hk]; [done|].
    apply foldl_applyDeprecation_removes; [by left|].
    by apply Snackbar_replacements_not_deprecated.
  - intros k Hc Ho Hn. rewrite getProp_omit, decide_False by done.
    by apply foldl_applyDeprecation_other.
  - intros oldName newName Hin Hne Hc Hold Hnew.
    rewrite getProp_omit, decide_False by done.
    by apply Snackbar_alias_value.
Qed.

(** [alignStart] alone reaches the root element as [leading]. *)
Lemma Snackbar_render_rest_witness :
  getProp (snackbarRenderRest (<["alignStart" := VBool true]> (<["open" := VBool true]> ∅)))
          "leading" = VBool true.
Proof.
  refine (proj2 (proj2 (Snackbar_render_rest
            (<["alignStart" := VBool true]> (<["open" := VBool true]> ∅))))
            "alignStart" "leading" _ _ _ _ _).
  - do 3 right. by left.
  - discriminate.
  - unfold snackbarRenderConsumed.
    rewrite ?not_elem_of_cons; split_and?; solve [done | apply not_elem_of_nil].
  - by vm_compute.
  - by vm_compute.
Defined.
